(** * Weekly Silverware aggregation: a shallow embedding of
      [scripts/fetch_silverware_week.mjs]

    The script asks a point-of-sale API for the orders of one week, sums
    food sales, voids and promotions over the order lines and stores one
    document per location.  This file embeds the script function by
    function and proves properties of the embedding.

    Modelling conventions.
    - A JS number is a value of [jsnum]: an exact rational, one of the two
      infinities, or NaN.  Binary64 rounding and the sign of zero are not
      modelled there; sums and products of finite numbers are exact.  This
      cannot change a sign, the branch that runs or the total an amount is
      added to.  It can change what rounding to cents returns, so that
      step is also given on binary64 numbers ([round2_binary64]).
    - A record received from the API is a [JsVal], the tree [JSON.parse]
      builds.  Object keys are plain data: they do not shadow members of
      [Object.prototype] such as [toString].
    - Strings are sequences of 8-bit characters; case conversion and
      trimming act on the ASCII letters and white space.
    - The conversions the engine performs between strings and numbers, the
      engine's parser for dates that are not in the ISO shape and the local
      time zone are fields of the class [Runtime]; every definition and
      theorem is uniform in them.
    - Calls to the outside (HTTP, document store) read their outcome from
      the [World], which lists the replies in the order the calls are made
      and records every request sent and every document written. *)

From Stdlib Require Import ZArith QArith Qround Qreduction List String Ascii Bool Lia Lqa.
From Stdlib Require Import DecimalString.
From Stdlib Require Import Floats.PrimFloat Floats.SpecFloat Floats.FloatOps Uint63.
Import ListNotations.
Local Open Scope string_scope.
Local Open Scope Z_scope.
Set Warnings "-register-all".

(** ** Numbers *)

Inductive jsnum : Type :=
| NaN
| PInf
| NInf
| Fin (q : Q).

Definition num_zero : jsnum := Fin 0.
Definition num_of_Z (z : Z) : jsnum := Fin (inject_Z z).

(** [ToBoolean] on a number: [0] and [NaN] are falsy. *)
Definition num_truthy (x : jsnum) : bool :=
  match x with
  | NaN => false
  | PInf | NInf => true
  | Fin q => negb (Qeq_bool q 0)
  end.

(** [x || y] on numbers. *)
Definition num_or (x y : jsnum) : jsnum := if num_truthy x then x else y.

(** [x + y]. *)
Definition num_add (x y : jsnum) : jsnum :=
  match x, y with
  | NaN, _ | _, NaN => NaN
  | PInf, NInf | NInf, PInf => NaN
  | PInf, _ | _, PInf => PInf
  | NInf, _ | _, NInf => NInf
  | Fin a, Fin b => Fin (Qred (a + b))
  end.

(** [x * 100] and [x / 100]. *)
Definition num_times100 (x : jsnum) : jsnum :=
  match x with
  | Fin a => Fin (Qred (a * 100))
  | other => other
  end.

Definition num_over100 (x : jsnum) : jsnum :=
  match x with
  | Fin a => Fin (Qred (a / 100))
  | other => other
  end.

(** [Math.max(x, 0)]: NaN if [x] is NaN, otherwise the larger of the two. *)
Definition Math_max0 (x : jsnum) : jsnum :=
  match x with
  | NaN => NaN
  | PInf => PInf
  | NInf => num_zero
  | Fin a => if Qle_bool 0 a then Fin a else num_zero
  end.

(** [Math.round(x)]: the integer nearest to [x], halves going up. *)
Definition Math_round (x : jsnum) : jsnum :=
  match x with
  | Fin a => Fin (inject_Z (Qfloor (a + (1 # 2))))
  | other => other
  end.

(** [x >= 0] and [x <= y] as JS evaluates them (false when NaN is involved). *)
Definition num_ge0 (x : jsnum) : bool :=
  match x with
  | NaN | NInf => false
  | PInf => true
  | Fin a => Qle_bool 0 a
  end.

Definition num_le (x y : jsnum) : bool :=
  match x, y with
  | NaN, _ | _, NaN => false
  | NInf, _ | _, PInf => true
  | _, NInf | PInf, _ => false
  | Fin a, Fin b => Qle_bool a b
  end.

(** [x === y] on numbers. *)
Definition num_eqb (x y : jsnum) : bool :=
  match x, y with
  | PInf, PInf | NInf, NInf => true
  | Fin a, Fin b => Qeq_bool a b
  | _, _ => false
  end.

(** ** Values *)

Inductive JsVal : Type :=
| JUndef
| JNull
| JBool (b : bool)
| JNum (n : jsnum)
| JStr (s : string)
| JArr (xs : list JsVal)
| JObj (kvs : list (string * JsVal)).

(** [ToBoolean]. *)
Definition truthy (v : JsVal) : bool :=
  match v with
  | JUndef | JNull => false
  | JBool b => b
  | JNum n => num_truthy n
  | JStr s => negb (String.eqb s "")
  | JArr _ | JObj _ => true
  end.

(** [a || b] and [a ?? b]. *)
Definition js_or (a b : JsVal) : JsVal := if truthy a then a else b.

Definition js_coalesce (a b : JsVal) : JsVal :=
  match a with
  | JUndef | JNull => b
  | _ => a
  end.

Fixpoint assoc (k : string) (kvs : list (string * JsVal)) : JsVal :=
  match kvs with
  | [] => JUndef
  | (k', v) :: rest => if String.eqb k k' then v else assoc k rest
  end.

(** [v?.k]: undefined on null and undefined, an own property of an object,
    the [length] of an array or a string, undefined otherwise. *)
Definition get (v : JsVal) (k : string) : JsVal :=
  match v with
  | JObj kvs => assoc k kvs
  | JArr xs => if String.eqb k "length" then JNum (num_of_Z (Z.of_nat (List.length xs))) else JUndef
  | JStr s => if String.eqb k "length" then JNum (num_of_Z (Z.of_nat (String.length s))) else JUndef
  | _ => JUndef
  end.

Definition isArray (v : JsVal) : bool :=
  match v with JArr _ => true | _ => false end.

(** The engine's conversions that this development leaves open. *)
Class Runtime : Type := {
  (** [Number(s)] on a string. *)
  StringToNumber : string -> jsnum;
  (** [String(n)] on a number. *)
  NumberToString : jsnum -> string;
  (** The message of the SyntaxError that [JSON.parse] raises on a text
      that is not JSON. *)
  JSON_parse_error : string -> string;
  (** [Date.parse] on a string that is not in the ISO shape. *)
  legacy_date_parse : string -> option Z;
  (** The offset of local time from UTC at a time value, in milliseconds. *)
  LocalTZA : Z -> Z
}.

(** ** Strings *)

Definition lower_char (c : ascii) : ascii :=
  let n := nat_of_ascii c in
  if ((65 <=? n) && (n <=? 90))%nat then ascii_of_nat (n + 32) else c.

(** [s.toLowerCase()]. *)
Fixpoint toLowerCase (s : string) : string :=
  match s with
  | EmptyString => EmptyString
  | String c rest => String (lower_char c) (toLowerCase rest)
  end.

Definition is_space (c : ascii) : bool :=
  let n := nat_of_ascii c in
  ((9 <=? n) && (n <=? 13) || (n =? 32))%nat.

Fixpoint trim_start (s : string) : string :=
  match s with
  | EmptyString => EmptyString
  | String c rest => if is_space c then trim_start rest else s
  end.

(** The string without its trailing white space. *)
Fixpoint trim_end (s : string) : string :=
  match s with
  | EmptyString => EmptyString
  | String c rest =>
      match trim_end rest with
      | EmptyString => if is_space c then EmptyString else String c EmptyString
      | kept => String c kept
      end
  end.

(** [s.trim()]. *)
Definition trim (s : string) : string := trim_end (trim_start s).

(** [s.split(",")]: the pieces between the commas, at least one piece. *)
Fixpoint split_comma (s : string) : list string :=
  match s with
  | EmptyString => [EmptyString]
  | String c rest =>
      if Ascii.eqb c ","%char then EmptyString :: split_comma rest
      else match split_comma rest with
           | [] => [String c EmptyString]
           | piece :: pieces => String c piece :: pieces
           end
  end.

(** [s.includes(h)]. *)
Fixpoint includes (s h : string) : bool :=
  String.prefix h s ||
  match s with
  | EmptyString => false
  | String _ rest => includes rest h
  end.

Definition nonempty (s : string) : bool := negb (String.eqb s "").

Fixpoint join_comma (pieces : list string) : string :=
  match pieces with
  | [] => ""
  | [p] => p
  | p :: rest => p ++ "," ++ join_comma rest
  end.

(** ** Coercions *)

Section Coercions.
Context {RT : Runtime}.

(** [String(v)].  An array prints its elements separated by commas, with
    null and undefined elements printed as nothing. *)
Fixpoint js_String (v : JsVal) : string :=
  match v with
  | JUndef => "undefined"
  | JNull => "null"
  | JBool true => "true"
  | JBool false => "false"
  | JNum n => NumberToString n
  | JStr s => s
  | JArr xs =>
      join_comma
        ((fix elems (l : list JsVal) : list string :=
            match l with
            | [] => []
            | JUndef :: rest => "" :: elems rest
            | JNull :: rest => "" :: elems rest
            | x :: rest => js_String x :: elems rest
            end) xs)
  | JObj _ => "[object Object]"
  end.

(** [Number(v)]. *)
Definition js_Number (v : JsVal) : jsnum :=
  match v with
  | JUndef => NaN
  | JNull => num_zero
  | JBool true => num_of_Z 1
  | JBool false => num_zero
  | JNum n => n
  | JStr s => StringToNumber s
  | JArr _ | JObj _ => StringToNumber (js_String v)
  end.

(** ** Extractors *)

(** [const num = (v) => (typeof v === "number" ? v : (v ? Number(v) : 0)) || 0] *)
Definition num (v : JsVal) : jsnum :=
  num_or
    (match v with
     | JNum n => n
     | _ => if truthy v then js_Number v else num_zero
     end)
    num_zero.

Definition empty_array : JsVal := JArr [].

Definition orderLines (o : JsVal) : JsVal :=
  js_or (get o "Lines")
    (js_or (get o "Items")
       (js_or (get o "OrderLines")
          (js_or (get o "OrderItems")
             (js_or (get o "CheckLines") empty_array)))).

Definition lineTotal (line : JsVal) : jsnum :=
  num_or (num (get line "NetTotal"))
    (num_or (num (get line "LineTotal"))
       (num_or (num (get line "ExtendedPrice"))
          (num_or (num (get line "Total"))
             (num (get line "Amount"))))).

Definition lineDiscount (line : JsVal) : jsnum :=
  num_or (num (get line "Discount"))
    (num_or (num (get line "DiscountAmount")) num_zero).

Definition orderHeaderDiscount (o : JsVal) : jsnum :=
  num_or (num (get o "DiscountTotal"))
    (num_or (num (get o "PromotionsTotal"))
       (num_or (num (get o "CheckDiscountTotal"))
          (num_or (num (get o "TotalDiscount")) num_zero))).

Definition lineCategoryName (line : JsVal) : string :=
  toLowerCase
    (js_String
       (js_or (get line "SalesCategoryName")
          (js_or (get line "CategoryName")
             (js_or (get line "MenuGroup")
                (js_or (get line "Family")
                   (js_or (get line "Category") (JStr ""))))))).

(** [FOOD_HINTS], from the value of the variable [FOOD_CATEGORY_HINTS]
    ([None] when it is not set). *)
Definition FOOD_HINTS (env : option string) : list string :=
  let raw := match env with
             | Some s => if nonempty s then s else "food,kitchen"
             | None => "food,kitchen"
             end in
  filter nonempty (map (fun s => toLowerCase (trim s)) (split_comma raw)).

Definition looksLikeFood (hints : list string) (line : JsVal) : bool :=
  let name := lineCategoryName line in
  existsb (fun h => includes name h) hints.

Definition is_true (v : JsVal) : bool :=
  match v with JBool true => true | _ => false end.

Definition isVoided (line : JsVal) : bool :=
  let s := toLowerCase (js_String (js_or (get line "Status") (JStr ""))) in
  is_true (get line "IsVoid") || is_true (get line "Voided")
  || String.eqb s "void" || String.eqb s "voided".

End Coercions.

(** ** Results and exceptions *)

Inductive Result (A : Type) : Type :=
| Ok (a : A)
| Throw (message : string).
Arguments Ok {A} a.
Arguments Throw {A} message.

(** ** Dates

    A [Date] holds a time value: milliseconds since 1970-01-01T00:00Z, or
    NaN ([None]).  The day and year arithmetic is the one of the language
    definition. *)

Definition msPerDay : Z := 86400000.
Definition msPerHour : Z := 3600000.
Definition msPerMinute : Z := 60000.
Definition msPerSecond : Z := 1000.

Definition Day (t : Z) : Z := t / msPerDay.
Definition TimeWithinDay (t : Z) : Z := t mod msPerDay.

Definition DayFromYear (y : Z) : Z :=
  365 * (y - 1970) + (y - 1969) / 4 - (y - 1901) / 100 + (y - 1601) / 400.

Definition is_leap (y : Z) : bool :=
  ((y mod 4 =? 0) && negb (y mod 100 =? 0)) || (y mod 400 =? 0).

(** The year of day number [d]: the largest [y] with [DayFromYear y <= d],
    found next to the estimate [d / 365.2425]. *)
Definition year_of_day (d : Z) : Z :=
  let y0 := 1970 + (d * 400) / 146097 in
  if DayFromYear (y0 + 1) <=? d then y0 + 1
  else if DayFromYear y0 <=? d then y0
  else y0 - 1.

Definition YearFromTime (t : Z) : Z := year_of_day (Day t).
Definition InLeapYear (t : Z) : Z := if is_leap (YearFromTime t) then 1 else 0.
Definition DayWithinYear (t : Z) : Z := Day t - DayFromYear (YearFromTime t).

(** The day within the year on which month [m] (0 to 11) starts. *)
Definition month_start (m leap : Z) : Z :=
  match m with
  | 0 => 0
  | 1 => 31
  | 2 => 59 + leap
  | 3 => 90 + leap
  | 4 => 120 + leap
  | 5 => 151 + leap
  | 6 => 181 + leap
  | 7 => 212 + leap
  | 8 => 243 + leap
  | 9 => 273 + leap
  | 10 => 304 + leap
  | _ => 334 + leap
  end.

Definition month_of_yday (d leap : Z) : Z :=
  if d <? 31 then 0
  else if d <? 59 + leap then 1
  else if d <? 90 + leap then 2
  else if d <? 120 + leap then 3
  else if d <? 151 + leap then 4
  else if d <? 181 + leap then 5
  else if d <? 212 + leap then 6
  else if d <? 243 + leap then 7
  else if d <? 273 + leap then 8
  else if d <? 304 + leap then 9
  else if d <? 334 + leap then 10
  else 11.

Definition MonthFromTime (t : Z) : Z := month_of_yday (DayWithinYear t) (InLeapYear t).
Definition DateFromTime (t : Z) : Z :=
  DayWithinYear t - month_start (MonthFromTime t) (InLeapYear t) + 1.
Definition WeekDay (t : Z) : Z := (Day t + 4) mod 7.
Definition HourFromTime (t : Z) : Z := (t / msPerHour) mod 24.
Definition MinFromTime (t : Z) : Z := (t / msPerMinute) mod 60.
Definition SecFromTime (t : Z) : Z := (t / msPerSecond) mod 60.
Definition msFromTime (t : Z) : Z := t mod msPerSecond.

Definition MakeTime (hour min sec ms : Z) : Z :=
  hour * msPerHour + min * msPerMinute + sec * msPerSecond + ms.

Definition MakeDay (year month date : Z) : Z :=
  let ym := year + month / 12 in
  let mn := month mod 12 in
  DayFromYear ym + month_start mn (if is_leap ym then 1 else 0) + date - 1.

Definition MakeDate (day time : Z) : Z := day * msPerDay + time.

Definition TimeClip (t : Z) : option Z :=
  if Z.abs t <=? 8640000000000000 then Some t else None.

(** The number of days of month [month] (0 to 11) of [year]. *)
Definition days_in_month (year month : Z) : Z :=
  match month with
  | 1 => 28 + (if is_leap year then 1 else 0)
  | 3 | 5 | 8 | 10 => 30
  | _ => 31
  end.

(** *** Digits *)

Definition digit_char (d : Z) : ascii := ascii_of_nat (48 + Z.to_nat d).

Definition digit_of (c : ascii) : option Z :=
  let n := nat_of_ascii c in
  if ((48 <=? n) && (n <=? 57))%nat then Some (Z.of_nat n - 48) else None.

(** [k] written with [n] digits, zeros in front. *)
Fixpoint pad (n : nat) (k : Z) : string :=
  match n with
  | O => ""
  | S n' => pad n' (k / 10) ++ String (digit_char (k mod 10)) ""
  end.

(** Reads exactly [n] digits. *)
Fixpoint read_digits (n : nat) (acc : Z) (s : string) : option (Z * string) :=
  match n with
  | O => Some (acc, s)
  | S n' =>
      match s with
      | String c rest =>
          match digit_of c with
          | Some d => read_digits n' (acc * 10 + d) rest
          | None => None
          end
      | EmptyString => None
      end
  end.

Definition expect (c : ascii) (s : string) : option string :=
  match s with
  | String c' rest => if Ascii.eqb c c' then Some rest else None
  | EmptyString => None
  end.

Notation "x <- e ;; k" :=
  (match e with Some x => k | None => None end)
  (at level 100, e at next level, right associativity, only parsing).
Notation "' p <- e ;; k" :=
  (match e with Some p => k | None => None end)
  (at level 100, p pattern, e at next level, right associativity, only parsing).

(** A year of four digits, or of six digits after a sign (not [-000000]). *)
Definition read_year (s : string) : option (Z * string) :=
  match s with
  | String "+" rest => read_digits 6 0 rest
  | String "-" rest =>
      '(y, rest') <- read_digits 6 0 rest ;;
      if y =? 0 then None else Some (- y, rest')
  | _ => read_digits 4 0 s
  end.

(** The reader for [YYYY-MM-DDTHH:mm:ssZ] and [YYYY-MM-DDTHH:mm:ss.sssZ]
    naming a day of the calendar and a time of the day. *)
Definition parse_iso (s : string) : option Z :=
  '(Y, s) <- read_year s ;;
  s <- expect "-" s ;;
  '(M, s) <- read_digits 2 0 s ;;
  s <- expect "-" s ;;
  '(D, s) <- read_digits 2 0 s ;;
  s <- expect "T" s ;;
  '(h, s) <- read_digits 2 0 s ;;
  s <- expect ":" s ;;
  '(mi, s) <- read_digits 2 0 s ;;
  s <- expect ":" s ;;
  '(sec, s) <- read_digits 2 0 s ;;
  '(ms, s) <- match s with
              | String "." rest => read_digits 3 0 rest
              | _ => Some (0, s)
              end ;;
  if String.eqb s "Z"
     && (1 <=? M) && (M <=? 12) && (1 <=? D) && (D <=? days_in_month Y (M - 1))
     && (h <=? 23) && (mi <=? 59) && (sec <=? 59)
  then Some (MakeDate (MakeDay Y (M - 1) D) (MakeTime h mi sec ms))
  else None.

Section Dates.
Context {RT : Runtime}.

(** [Date.parse(s)]. *)
Definition Date_parse (s : string) : option Z :=
  match parse_iso s with
  | Some t => Some t
  | None => legacy_date_parse s
  end.

(** [new Date(s)] for a string [s]. *)
Definition new_Date (s : string) : option Z :=
  match Date_parse s with
  | Some t => TimeClip t
  | None => None
  end.

Definition getUTCMinutes (d : option Z) : option Z := option_map MinFromTime d.
Definition getUTCDate (d : option Z) : option Z := option_map DateFromTime d.
Definition getUTCDay (d : option Z) : option Z := option_map WeekDay d.

(** [d.setUTCMinutes(min)], the new time value. *)
Definition setUTCMinutes (d : option Z) (min : option Z) : option Z :=
  match d, min with
  | Some t, Some m =>
      TimeClip (MakeDate (Day t) (MakeTime (HourFromTime t) m (SecFromTime t) (msFromTime t)))
  | _, _ => None
  end.

(** [d.setUTCDate(date)], the new time value. *)
Definition setUTCDate (d : option Z) (date : option Z) : option Z :=
  match d, date with
  | Some t, Some dt =>
      TimeClip (MakeDate (MakeDay (YearFromTime t) (MonthFromTime t) dt) (TimeWithinDay t))
  | _, _ => None
  end.

Definition iso_year (y : Z) : string :=
  if (0 <=? y) && (y <=? 9999) then pad 4 y
  else (if y <? 0 then "-" else "+") ++ pad 6 (Z.abs y).

(** The time value [t] in the form [YYYY-MM-DDTHH:mm:ss.sssZ]. *)
Definition iso_string (t : Z) : string :=
  iso_year (YearFromTime t) ++ "-" ++ pad 2 (MonthFromTime t + 1) ++ "-"
  ++ pad 2 (DateFromTime t) ++ "T" ++ pad 2 (HourFromTime t) ++ ":"
  ++ pad 2 (MinFromTime t) ++ ":" ++ pad 2 (SecFromTime t) ++ "."
  ++ pad 3 (msFromTime t) ++ "Z".

(** [d.toISOString()]; a RangeError on an invalid date. *)
Definition toISOString (d : option Z) : Result string :=
  match d with
  | None => Throw "Invalid time value"
  | Some t => Ok (iso_string t)
  end.

Definition opt_sub (a b : option Z) : option Z :=
  match a, b with Some x, Some y => Some (x - y) | _, _ => None end.
Definition opt_add (a b : option Z) : option Z :=
  match a, b with Some x, Some y => Some (x + y) | _, _ => None end.

Record Window : Type := { start : string; end_ : string }.

(** [rangeForWeekISO(iso, tzOffsetMin)]; the offset is an integer number of
    minutes or NaN ([None]). *)
Definition rangeForWeekISO (iso : string) (tzOffsetMin : option Z) : Result Window :=
  let mk (s : string) : Result string :=
    let d := new_Date (s ++ "T00:00:00Z") in
    let d := setUTCMinutes d (opt_sub (getUTCMinutes d) tzOffsetMin) in
    toISOString d in
  match mk iso with
  | Throw e => Throw e
  | Ok start =>
      let endDate := new_Date start in
      let endDate := setUTCDate endDate (opt_add (getUTCDate endDate) (Some 7)) in
      match toISOString endDate with
      | Throw e => Throw e
      | Ok end_ => Ok {| start := start; end_ := end_ |}
      end
  end.

End Dates.

(** ** Configuration *)

(** The environment variables the script reads ([None]: not set). *)
Record Env : Type := {
  WEEK_OF : option string;
  FOOD_CATEGORY_HINTS : option string;
  SILVERWARE_TZ_OFFSET_MINUTES : option string;
  SILVERWARE_BASE_BEACON : option string;
  SILVERWARE_TOKEN_BEACON : option string;
  SILVERWARE_BASE_TULIA : option string;
  SILVERWARE_TOKEN_TULIA : option string;
  SILVERWARE_BASE_PROHIBITION : option string;
  SILVERWARE_TOKEN_PROHIBITION : option string;
  SILVERWARE_BASE_CESOIR : option string;
  SILVERWARE_TOKEN_CESOIR : option string
}.

Record Cfg : Type := { base : option string; token : option string }.

Definition LOCS (env : Env) : list (string * Cfg) :=
  [ ("beacon", {| base := SILVERWARE_BASE_BEACON env; token := SILVERWARE_TOKEN_BEACON env |});
    ("tulia", {| base := SILVERWARE_BASE_TULIA env; token := SILVERWARE_TOKEN_TULIA env |});
    ("prohibition",
      {| base := SILVERWARE_BASE_PROHIBITION env; token := SILVERWARE_TOKEN_PROHIBITION env |});
    ("cesoir", {| base := SILVERWARE_BASE_CESOIR env; token := SILVERWARE_TOKEN_CESOIR env |}) ].

(** [e || d] for an environment variable [e]. *)
Definition env_or (e : option string) (d : string) : string :=
  match e with
  | Some s => if nonempty s then s else d
  | None => d
  end.

Fixpoint read_number (acc : option Z) (s : string) : option Z :=
  match s with
  | String c rest =>
      match digit_of c with
      | Some d => read_number (Some (match acc with Some a => a * 10 + d | None => d end)) rest
      | None => acc
      end
  | EmptyString => acc
  end.

(** [parseInt(s, 10)]: NaN ([None]) when no digit follows the optional sign. *)
Definition parseInt10 (s : string) : option Z :=
  match trim_start s with
  | String "-" rest => option_map Z.opp (read_number None rest)
  | String "+" rest => read_number None rest
  | other => read_number None other
  end.

Definition TZ_OFFSET_MIN (env : Env) : option Z :=
  parseInt10 (env_or (SILVERWARE_TZ_OFFSET_MINUTES env) "0").

(** ** The outside world *)

Inductive Endpoint : Type := GetOrders | GetOrder.

Definition endpoint_path (ep : Endpoint) : string :=
  match ep with
  | GetOrders => "/api/ThirdParty/GetOrders"
  | GetOrder => "/api/ThirdParty/GetOrder"
  end.

Inductive Method : Type := POST | GET.

(** A request as [swFetch] sends it: the address, which for a GET ends
    with the query string; the token; the method; and the fields, those of
    the body for a POST and those of the query string for a GET. *)
Record Request : Type := {
  url : string;
  bearer : string;
  method : Method;
  params : list (string * JsVal)
}.

(** What comes back from [fetch]: no response at all, or a response with a
    status, the text of its body and the body as JSON when it is JSON. *)
Inductive Reply : Type :=
| NoResponse (message : string)
| Response (status : Z) (text : string) (json : option JsVal).

(** The document [writeOverrides] stores. *)
Record Doc : Type := {
  doc_path : string;
  food_sales : jsnum;
  doc_voids : jsnum;
  comps : jsnum;
  source_orders : nat;
  days_scanned : Z;
  last_run : string
}.

Record Totals : Type := {
  t_start : string;
  t_end : string;
  orders : nat;
  food : jsnum;
  voids : jsnum;
  promos : jsnum
}.

Inductive LogLine : Type :=
| Skipped (locKey : string)
| Summary (locKey : string) (totals : Totals)
| Failed (locKey : string) (message : string).

(** The replies are indexed by the number of earlier calls of the same
    kind; [sent], [written] and [console] have the latest entry first. *)
Record World : Type := {
  orders_replies : nat -> Reply;
  orders_calls : nat;
  order_replies : nat -> Reply;
  order_calls : nat;
  sent : list Request;
  store_replies : nat -> option string;
  store_calls : nat;
  written : list Doc;
  clock : nat -> Z;
  clock_reads : nat;
  console : list LogLine
}.

(** A computation: [None] when the loop budget runs out, otherwise a value
    or an exception, and the world afterwards. *)
Definition M (A : Type) : Type := World -> option (Result A * World).

Definition ret {A} (a : A) : M A := fun w => Some (Ok a, w).
Definition throw {A} (message : string) : M A := fun w => Some (Throw message, w).
Definition bind {A B} (m : M A) (k : A -> M B) : M B :=
  fun w =>
    match m w with
    | None => None
    | Some (Ok a, w') => k a w'
    | Some (Throw e, w') => Some (Throw e, w')
    end.
Definition try_catch {A} (m : M A) (handler : string -> M A) : M A :=
  fun w =>
    match m w with
    | None => None
    | Some (Ok a, w') => Some (Ok a, w')
    | Some (Throw e, w') => handler e w'
    end.
Definition lift {A} (r : Result A) : M A := fun w => Some (r, w).

Declare Scope m_scope.
Delimit Scope m_scope with m.
Notation "'let*' x ':=' m 'in' k" := (bind m (fun x => k))
  (at level 10, x pattern, m at level 100, k at level 200) : m_scope.
Local Open Scope m_scope.

Definition log (line : LogLine) : M unit := fun w =>
  Some (Ok tt,
        {| orders_replies := orders_replies w; orders_calls := orders_calls w;
           order_replies := order_replies w; order_calls := order_calls w;
           sent := sent w; store_replies := store_replies w; store_calls := store_calls w;
           written := written w; clock := clock w; clock_reads := clock_reads w;
           console := line :: console w |}).

(** [new Date()]: the clock, read once more. *)
Definition now : M Z := fun w =>
  Some (Ok (clock w (clock_reads w)),
        {| orders_replies := orders_replies w; orders_calls := orders_calls w;
           order_replies := order_replies w; order_calls := order_calls w;
           sent := sent w; store_replies := store_replies w; store_calls := store_calls w;
           written := written w; clock := clock w; clock_reads := S (clock_reads w);
           console := console w |}).

(** [fetch(u, init)]: the request goes out and the next reply of its
    endpoint comes back. *)
Definition fetch (ep : Endpoint) (req : Request) : M Reply := fun w =>
  match ep with
  | GetOrders =>
      Some (Ok (orders_replies w (orders_calls w)),
            {| orders_replies := orders_replies w; orders_calls := S (orders_calls w);
               order_replies := order_replies w; order_calls := order_calls w;
               sent := req :: sent w; store_replies := store_replies w;
               store_calls := store_calls w; written := written w; clock := clock w;
               clock_reads := clock_reads w; console := console w |})
  | GetOrder =>
      Some (Ok (order_replies w (order_calls w)),
            {| orders_replies := orders_replies w; orders_calls := orders_calls w;
               order_replies := order_replies w; order_calls := S (order_calls w);
               sent := req :: sent w; store_replies := store_replies w;
               store_calls := store_calls w; written := written w; clock := clock w;
               clock_reads := clock_reads w; console := console w |})
  end.

(** [ref.set(doc, { merge: true })]: stored unless the store refuses. *)
Definition store_set (d : Doc) : M unit := fun w =>
  let w' (docs : list Doc) :=
    {| orders_replies := orders_replies w; orders_calls := orders_calls w;
       order_replies := order_replies w; order_calls := order_calls w;
       sent := sent w; store_replies := store_replies w; store_calls := S (store_calls w);
       written := docs; clock := clock w; clock_reads := clock_reads w;
       console := console w |} in
  match store_replies w (store_calls w) with
  | None => Some (Ok tt, w' (d :: written w))
  | Some refusal => Some (Throw refusal, w' (written w))
  end.

(** ** Query strings *)

Definition hex_digit (n : N) : ascii :=
  match n with
  | 0%N => "0" | 1%N => "1" | 2%N => "2" | 3%N => "3" | 4%N => "4" | 5%N => "5"
  | 6%N => "6" | 7%N => "7" | 8%N => "8" | 9%N => "9" | 10%N => "A" | 11%N => "B"
  | 12%N => "C" | 13%N => "D" | 14%N => "E" | _ => "F"
  end%char.

(** The byte [c] as a percent sign and two hexadecimal digits. *)
Definition percent_encode (c : ascii) : string :=
  let n := N_of_ascii c in
  String "%" (String (hex_digit (n / 16)) (String (hex_digit (n mod 16)) EmptyString)).

(** The bytes that the serializer of [URLSearchParams] leaves as they
    are: the ASCII letters and digits and [*], [-], [.] and [_]. *)
Definition urlencoded_plain (c : ascii) : bool :=
  let n := N_of_ascii c in
  ((48 <=? n) && (n <=? 57) || (65 <=? n) && (n <=? 90) || (97 <=? n) && (n <=? 122)
   || (n =? 42) || (n =? 45) || (n =? 46) || (n =? 95))%N.

(** A name or a value in a query string: a space becomes [+] and every
    byte that is not left as it is becomes its percent code. *)
Fixpoint urlencode (s : string) : string :=
  match s with
  | EmptyString => EmptyString
  | String c rest =>
      if Ascii.eqb c " "%char then String "+" (urlencode rest)
      else if urlencoded_plain c then String c (urlencode rest)
      else percent_encode c ++ urlencode rest
  end.

(** [new URLSearchParams(record).toString()]: the pairs [name=value] in
    the order of the record, separated by [&]. *)
Definition URLSearchParams (fields : list (string * string)) : string :=
  String.concat "&" (map (fun kv => urlencode (fst kv) ++ "=" ++ urlencode (snd kv)) fields).

(** ** The Silverware client *)

Section Aggregator.
Context {RT : Runtime}.
Variable env : Env.

(** [base.replace(/\/$/, "")]. *)
Fixpoint strip_slash (s : string) : string :=
  match s with
  | EmptyString => EmptyString
  | String c rest =>
      match rest with
      | EmptyString => if Ascii.eqb c "/"%char then EmptyString else s
      | _ => String c (strip_slash rest)
      end
  end.

Definition show_Z (z : Z) : string := NumberToString (num_of_Z z).

(** The [path] that [listOrders] and [getOrder] hand to [swFetch]: the
    path of the endpoint, followed in a GET request by [?] and the query
    string made of the fields. *)
Definition request_path (ep : Endpoint) (m : Method) (fields : list (string * JsVal))
    : string :=
  match m with
  | POST => endpoint_path ep
  | GET =>
      endpoint_path ep ++ "?"
      ++ URLSearchParams (map (fun kv => (fst kv, js_String (snd kv))) fields)
  end.

(** [swFetch(base, token, path, body)].  The callers give a body (the
    fields as an object; the method is then POST) or put the fields in the
    query string of [path] (the method is then GET); here [swFetch] is
    given the endpoint, the method and the fields, and [path] is
    [request_path] of them. *)
Definition swFetch (base token : string) (ep : Endpoint) (m : Method)
    (fields : list (string * JsVal)) : M JsVal :=
  let path := request_path ep m fields in
  let* reply := fetch ep {| url := strip_slash base ++ path; bearer := token;
                           method := m; params := fields |} in
  match reply with
  | NoResponse message => throw message
  | Response status text json =>
      if (200 <=? status) && (status <=? 299) then
        match json with
        | Some v => ret v
        | None => throw (JSON_parse_error text)
        end
      else throw (path ++ " " ++ show_Z status ++ ": " ++ text)
  end.

Definition page_number (page : nat) : jsnum := num_of_Z (Z.of_nat page).

Definition listOrders (base token startISO endISO : string) (page : nat) : M JsVal :=
  try_catch
    (swFetch base token GetOrders POST
       [("StartDate", JStr startISO); ("EndDate", JStr endISO);
        ("Page", JNum (page_number page)); ("PageSize", JNum (num_of_Z 500))])
    (fun _ =>
       swFetch base token GetOrders GET
         [("StartDate", JStr startISO); ("EndDate", JStr endISO);
          ("Page", JStr (js_String (JNum (page_number page)))); ("PageSize", JStr "500")]).

Definition getOrder (base token : string) (orderId : JsVal) : M JsVal :=
  try_catch
    (swFetch base token GetOrder POST [("OrderID", orderId)])
    (fun _ => swFetch base token GetOrder GET [("OrderID", JStr (js_String orderId))]).

(** ** The aggregator *)

Record Acc : Type := {
  a_orders : nat;
  a_food : jsnum;
  a_voids : jsnum;
  a_promos : jsnum
}.

Definition acc0 : Acc :=
  {| a_orders := 0; a_food := num_zero; a_voids := num_zero; a_promos := num_zero |}.

(** The body of [for (const ln of lines)]. *)
Definition line_step (a : Acc) (ln : JsVal) : Acc :=
  let amt := lineTotal ln in
  if isVoided ln then
    {| a_orders := a_orders a; a_food := a_food a;
       a_voids := num_add (a_voids a) (Math_max0 amt); a_promos := a_promos a |}
  else
    let food := if looksLikeFood (FOOD_HINTS (FOOD_CATEGORY_HINTS env)) ln
                then num_add (a_food a) (Math_max0 amt) else a_food a in
    {| a_orders := a_orders a; a_food := food; a_voids := a_voids a;
       a_promos := num_add (a_promos a) (Math_max0 (lineDiscount ln)) |}.

Definition chars (s : string) : list JsVal :=
  map (fun c => JStr (String c EmptyString)) (list_ascii_of_string s).

(** What [for ... of v] runs through: the elements of an array, the
    characters of a string; a TypeError on anything else. *)
Definition iterate (v : JsVal) : Result (list JsVal) :=
  match v with
  | JArr xs => Ok xs
  | JStr s => Ok (chars s)
  | _ => Throw "lines is not iterable"
  end.

(** The body of [for (const row of rows)]. *)
Definition row_step (base token : string) (a : Acc) (row : JsVal) : M Acc :=
  let orders := S (a_orders a) in
  let* o := (if truthy (get (orderLines row) "length") then ret row
             else getOrder base token
                    (js_coalesce (get row "OrderID") (js_coalesce (get row "Id") (get row "ID")))) in
  let* lines := lift (iterate (orderLines o)) in
  let a := fold_left line_step lines
             {| a_orders := orders; a_food := a_food a; a_voids := a_voids a;
                a_promos := a_promos a |} in
  ret {| a_orders := a_orders a; a_food := a_food a; a_voids := a_voids a;
         a_promos := num_add (a_promos a) (Math_max0 (orderHeaderDiscount o)) |}.

Fixpoint rows_loop (base token : string) (rows : list JsVal) (a : Acc) : M Acc :=
  match rows with
  | [] => ret a
  | row :: rest => let* a' := row_step base token a row in rows_loop base token rest a'
  end.

(** [payload?.Orders || payload?.Data || payload || []]. *)
Definition rows_of (payload : JsVal) : JsVal :=
  js_or (get payload "Orders") (js_or (get payload "Data") (js_or payload empty_array)).

(** [while (more)], with a budget of iterations. *)
Fixpoint paging (budget : nat) (base token startISO endISO : string) (page : nat) (a : Acc)
    : M Acc :=
  match budget with
  | O => fun _ => None
  | S budget' =>
      let* payload := listOrders base token startISO endISO page in
      match rows_of payload with
      | JArr (row :: more_rows) =>
          let rows := row :: more_rows in
          let* a' := rows_loop base token rows a in
          if (500 <=? List.length rows)%nat
          then paging budget' base token startISO endISO (S page) a'
          else ret a'
      | _ => ret a
      end
  end.

Definition round2 (n : jsnum) : jsnum := num_over100 (Math_round (num_times100 n)).

Definition collectForWeek (budget : nat) (base token weekISO : string) : M Totals :=
  let* window := lift (rangeForWeekISO weekISO (TZ_OFFSET_MIN env)) in
  let* a := paging budget base token (start window) (end_ window) 1 acc0 in
  ret {| t_start := start window; t_end := end_ window; orders := a_orders a;
         food := round2 (a_food a); voids := round2 (a_voids a);
         promos := round2 (a_promos a) |}.

Definition writeOverrides (locKey weekISO : string) (totals : Totals) : M unit :=
  let* t := now in
  store_set {| doc_path := "companies/aidan/locations/" ++ locKey ++ "/overrides/" ++ weekISO;
               food_sales := food totals; doc_voids := voids totals; comps := promos totals;
               source_orders := orders totals; days_scanned := 7;
               last_run := iso_string t |}.

End Aggregator.

(** ** The driver *)

Section Driver.
Context {RT : Runtime}.
Variable env : Env.

(** [Date.UTC(year, month, date)]. *)
Definition Date_UTC (year month date : Z) : option Z :=
  let yr := if (0 <=? year) && (year <=? 99) then 1900 + year else year in
  TimeClip (MakeDate (MakeDay yr month date) (MakeTime 0 0 0 0)).

Definition LocalTime (t : Z) : Z := t + LocalTZA t.

(** [mondayISO(d)] for the time value [d]. *)
Definition mondayISO (d : Z) : Result string :=
  let z := Date_UTC (YearFromTime (LocalTime d)) (MonthFromTime (LocalTime d))
             (DateFromTime (LocalTime d)) in
  let wd := match getUTCDay z with
            | Some 0 | None => 7
            | Some k => k
            end in
  let z := if wd =? 1 then z else setUTCDate z (opt_sub (getUTCDate z) (Some (wd - 1))) in
  match toISOString z with
  | Ok s => Ok (String.substring 0 10 s)
  | Throw e => Throw e
  end.

(** The body of [for (const [locKey, cfg] of Object.entries(LOCS))]. *)
Definition location_step (budget : nat) (weekISO : string) (loc : string * Cfg) : M unit :=
  let (locKey, cfg) := loc in
  match base cfg, token cfg with
  | Some b, Some t =>
      if nonempty b && nonempty t then
        try_catch
          (let* totals := collectForWeek env budget b t weekISO in
           let* _ := writeOverrides locKey weekISO totals in
           log (Summary locKey totals))
          (fun message => log (Failed locKey message))
      else log (Skipped locKey)
  | _, _ => log (Skipped locKey)
  end.

Fixpoint locations_loop (budget : nat) (weekISO : string) (locs : list (string * Cfg)) : M unit :=
  match locs with
  | [] => ret tt
  | loc :: rest =>
      let* _ := location_step budget weekISO loc in
      locations_loop budget weekISO rest
  end.

Definition main (budget : nat) : M unit :=
  let* weekISO := match WEEK_OF env with
                  | Some s => if nonempty s then ret s
                              else let* d := now in lift (mondayISO d)
                  | None => let* d := now in lift (mondayISO d)
                  end in
  locations_loop budget weekISO (LOCS env).

End Driver.

(** ** Rounding to cents on binary64 numbers *)

(** The binary64 number equal to the integer [z], for [|z| < 2^53]. *)
Definition float_of_Z (z : Z) : float :=
  let m := PrimFloat.of_uint63 (Uint63.of_Z (Z.abs z)) in
  if z <? 0 then PrimFloat.opp m else m.

(** [Math.round(x)] on a binary64 number: a number whose exponent is not
    negative is an integer already; otherwise [x] is [n / d] with [d] a
    power of two and the result is the integer part of [x + 1/2], computed
    exactly. *)
Definition Math_round_binary64 (x : float) : float :=
  match Prim2SF x with
  | S754_finite negative m e =>
      if 0 <=? e then x
      else
        let n := if negative then Z.neg m else Z.pos m in
        let d := 2 ^ (- e) in
        let r := (2 * n + d) / (2 * d) in
        if (r =? 0) && negative then PrimFloat.opp PrimFloat.zero else float_of_Z r
  | _ => x
  end.

(** [const round2 = (n) => Math.round(n * 100) / 100] on binary64. *)
Definition round2_binary64 (n : float) : float :=
  PrimFloat.div (Math_round_binary64 (PrimFloat.mul n (float_of_Z 100))) (float_of_Z 100).

(** The binary64 number that the decimal with [k] hundredths denotes. *)
Definition cents_binary64 (k : Z) : float := PrimFloat.div (float_of_Z k) (float_of_Z 100).

(** ** Vocabulary of the statements *)

(** [x !== 0]. *)
Definition nonzero (x : jsnum) : bool := negb (num_eqb x num_zero).

(** The first element with property [p], or the default when there is none. *)
Definition first_such {A : Type} (p : A -> bool) (xs : list A) (default : A) : A :=
  match find p xs with
  | Some x => x
  | None => default
  end.

Definition amount_fields : list string :=
  ["NetTotal"; "LineTotal"; "ExtendedPrice"; "Total"; "Amount"].

Definition line_fields : list string :=
  ["Lines"; "Items"; "OrderLines"; "OrderItems"; "CheckLines"].


(** The running totals are numbers that are not negative (so not NaN). *)
Definition acc_ok (a : Acc) : Prop :=
  num_ge0 (a_food a) = true /\ num_ge0 (a_voids a) = true /\ num_ge0 (a_promos a) = true.

(** No running total of [a'] is below that of [a]. *)
Definition acc_le (a a' : Acc) : Prop :=
  num_le (a_food a) (a_food a') = true /\ num_le (a_voids a) (a_voids a') = true
  /\ num_le (a_promos a) (a_promos a') = true.

(** The number of rows of a page: [rows.length], and 0 when the payload
    holds no array of rows. *)
Definition rows_count (payload : JsVal) : nat :=
  match rows_of payload with
  | JArr rows => List.length rows
  | _ => 0
  end.

(** The [i]-th call to [GetOrders] from now on is answered, with a
    success status, by [payload]. *)
Definition served (w : World) (i : nat) (payload : JsVal) : Prop :=
  exists status text,
    200 <= status <= 299
    /\ orders_replies w (orders_calls w + i) = Response status text (Some payload).

Definition page_param (r : Request) : list JsVal :=
  match assoc "Page" (params r) with
  | JUndef => []
  | v => [v]
  end.

(** The [Page] parameters of the requests sent so far, oldest first. *)
Definition pages_requested (w : World) : list JsVal :=
  rev (flat_map page_param (sent w)).

Definition page_numbers (first count : nat) : list JsVal :=
  map (fun n => JNum (page_number n)) (seq first count).

(** What a call to the API leaves alone. *)
Definition untouched_by_http (w w' : World) : Prop :=
  orders_replies w' = orders_replies w /\ order_replies w' = order_replies w
  /\ store_replies w' = store_replies w /\ store_calls w' = store_calls w
  /\ written w' = written w /\ clock w' = clock w
  /\ clock_reads w' = clock_reads w /\ console w' = console w.

(** What a call to [GetOrder] leaves alone. *)
Definition untouched_by_details (w w' : World) : Prop :=
  untouched_by_http w w' /\ orders_calls w' = orders_calls w
  /\ pages_requested w' = pages_requested w.

(** Whatever the outcome of [m], the world before and the world after are
    related by [R]. *)
Definition keeps (R : World -> World -> Prop) {A} (m : M A) : Prop :=
  forall w r w', m w = Some (r, w') -> R w w'.

(** A computation that always ends, with a value or an exception. *)
Definition total {A} (m : M A) : Prop := forall w, exists r w', m w = Some (r, w').

(** The date [Y-M-D] as [WEEK_OF] gives it, and its midnight in UTC. *)
Definition date_string (Y M D : Z) : string := pad 4 Y ++ "-" ++ pad 2 M ++ "-" ++ pad 2 D.
Definition midnight_UTC (Y M D : Z) : Z := MakeDate (MakeDay Y (M - 1) D) (MakeTime 0 0 0 0).

(** The row brings its lines along, so that no call to [GetOrder] is made
    for it; every row of the page does. *)
Definition carries_lines (row : JsVal) : Prop :=
  match orderLines row with
  | JArr (_ :: _) => True
  | _ => False
  end.

Definition page_carries_lines (payload : JsVal) : Prop :=
  match rows_of payload with
  | JArr rows => Forall carries_lines rows
  | _ => True
  end.

(** The sums that the lines of an order add to the running totals, in
    the words of the specification: the clamped amounts of the voided
    lines, the clamped amounts of the food lines that are not voided, and
    the clamped discounts of the lines that are not voided. *)
Section LineSums.
Context {RT : Runtime}.

Definition add_all (x0 : jsnum) (xs : list jsnum) : jsnum := fold_left num_add xs x0.

Definition clamped_amount (ln : JsVal) : jsnum := Math_max0 (lineTotal ln).
Definition clamped_discount (ln : JsVal) : jsnum := Math_max0 (lineDiscount ln).

Definition voided_lines (lines : list JsVal) : list JsVal := filter isVoided lines.
Definition kept_lines (lines : list JsVal) : list JsVal :=
  filter (fun ln => negb (isVoided ln)) lines.
Definition food_lines (hints : list string) (lines : list JsVal) : list JsVal :=
  filter (looksLikeFood hints) (kept_lines lines).

End LineSums.

(** ** A runtime and an environment for the examples

    UTC is the local zone; a string is a number when it is a decimal
    integer; whole numbers print in decimal and other numbers as a
    quotient; no date outside the ISO shape is accepted. *)

Fixpoint all_digits (acc : Z) (s : string) : option Z :=
  match s with
  | EmptyString => Some acc
  | String c rest =>
      match digit_of c with
      | Some d => all_digits (acc * 10 + d) rest
      | None => None
      end
  end.

Definition integer_of_string (s : string) : jsnum :=
  match trim s with
  | EmptyString => num_zero
  | String "-" (String c rest) =>
      match all_digits 0 (String c rest) with
      | Some z => num_of_Z (- z)
      | None => NaN
      end
  | other =>
      match all_digits 0 other with
      | Some z => num_of_Z z
      | None => NaN
      end
  end.

Definition show_Z_decimal (z : Z) : string := NilZero.string_of_int (Z.to_int z).

Definition string_of_number (x : jsnum) : string :=
  match x with
  | NaN => "NaN"
  | PInf => "Infinity"
  | NInf => "-Infinity"
  | Fin q =>
      let r := Qred q in
      match Qden r with
      | 1%positive => show_Z_decimal (Qnum r)
      | d => show_Z_decimal (Qnum r) ++ "/" ++ show_Z_decimal (Zpos d)
      end
  end.

Definition example_runtime : Runtime :=
  {| StringToNumber := integer_of_string;
     NumberToString := string_of_number;
     JSON_parse_error := fun text => "Unexpected token in JSON: " ++ text;
     legacy_date_parse := fun _ => None;
     LocalTZA := fun _ => 0 |}.

Definition example_env : Env :=
  {| WEEK_OF := Some "2025-10-06";
     FOOD_CATEGORY_HINTS := None;
     SILVERWARE_TZ_OFFSET_MINUTES := Some "-240";
     SILVERWARE_BASE_BEACON := Some "https://beacon.example/";
     SILVERWARE_TOKEN_BEACON := Some "secret";
     SILVERWARE_BASE_TULIA := None;
     SILVERWARE_TOKEN_TULIA := None;
     SILVERWARE_BASE_PROHIBITION := None;
     SILVERWARE_TOKEN_PROHIBITION := None;
     SILVERWARE_BASE_CESOIR := Some "https://cesoir.example";
     SILVERWARE_TOKEN_CESOIR := Some "secret" |}.

Definition jnum (z : Z) : JsVal := JNum (num_of_Z z).

(** A voided line that carries a discount. *)
Definition voided_line : JsVal :=
  JObj [("NetTotal", jnum 5); ("IsVoid", JBool true); ("Discount", jnum 2);
        ("CategoryName", JStr "Food")].

(** A food line. *)
Definition food_line : JsVal :=
  JObj [("NetTotal", jnum 10); ("LineTotal", jnum 12);
        ("CategoryName", JStr "Kitchen - Hot Line"); ("Discount", jnum 1)].

(** A line without any category. *)
Definition plain_line : JsVal := JObj [("NetTotal", jnum 7)].

(** An order that keeps its lines under [Items]. *)
Definition items_order : JsVal := JObj [("Items", JArr [food_line])].

(** An order whose [Lines] field is text while [Items] is an array. *)
Definition odd_order : JsVal :=
  JObj [("Lines", JStr "abc"); ("Items", JArr [food_line])].

(** A world that answers the calls to [GetOrders] with [pages] and the
    calls to [GetOrder] with [details], in this order, and answers nothing
    after that; the store accepts every document. *)
Definition world_of (pages details : list Reply) : World :=
  {| orders_replies := fun i => nth i pages (NoResponse "connection refused");
     orders_calls := 0;
     order_replies := fun i => nth i details (NoResponse "connection refused");
     order_calls := 0;
     sent := [];
     store_replies := fun _ => None;
     store_calls := 0;
     written := [];
     clock := fun _ => 1759900000000;
     clock_reads := 0;
     console := [] |}.

(** An order with a negative amount, a negative discount in a string, a
    voided line whose amount is not a number, a negative header discount
    and a food line. *)
Definition hostile_order : JsVal :=
  JObj [("OrderID", jnum 1);
        ("DiscountTotal", jnum (-7));
        ("Lines", JArr [JObj [("NetTotal", jnum (-5)); ("CategoryName", JStr "Food");
                              ("Discount", JStr "-3")];
                        JObj [("NetTotal", JStr "abc"); ("IsVoid", JBool true)];
                        food_line])].

Definition hostile_world : World :=
  world_of [Response 200 "" (Some (JObj [("Orders", JArr [hostile_order])]))] [].

(** A page of 500 orders and a page of two. *)
Definition full_page : JsVal := JArr (repeat items_order 500).
Definition short_page : JsVal := JObj [("Data", JArr [items_order; items_order])].

Definition two_pages_world : World :=
  world_of [Response 200 "" (Some full_page); Response 200 "" (Some short_page)] [].

(** A world in which the API does not answer. *)
Definition silent_world : World := world_of [] [].

(** ** Vocabulary of the further properties *)

(** The fields that [lineDiscount] and [orderHeaderDiscount] probe. *)
Definition discount_fields : list string := ["Discount"; "DiscountAmount"].

Definition header_discount_fields : list string :=
  ["DiscountTotal"; "PromotionsTotal"; "CheckDiscountTotal"; "TotalDiscount"].

Definition category_fields : list string :=
  ["SalesCategoryName"; "CategoryName"; "MenuGroup"; "Family"; "Category"].

(** A value that is not an object: [v?.k] is undefined for every field
    name the extractors use. *)
Definition not_an_object (v : JsVal) : bool :=
  match v with
  | JObj _ => false
  | _ => true
  end.



Fixpoint ends_with_slash (s : string) : bool :=
  match s with
  | EmptyString => false
  | String c EmptyString => Ascii.eqb c "/"%char
  | String _ rest => ends_with_slash rest
  end.

(** The value a reply carries when it is a success: a status from 200 to
    299 and a body that is JSON. *)
Definition reply_value (r : Reply) : option JsVal :=
  match r with
  | Response status _ (Some v) =>
      if (200 <=? status) && (status <=? 299) then Some v else None
  | _ => None
  end.

(** The message of the error that [swFetch] raises on a reply that is not
    a success, when it was called with [path]: the message of the failed
    connection, the path with the status and the text of a reply that is
    not OK, or the message of the parser for an OK reply that is not
    JSON. *)
Definition reply_error {RT : Runtime} (path : string) (r : Reply) : string :=
  match r with
  | NoResponse message => message
  | Response status text _ =>
      if (200 <=? status) && (status <=? 299) then JSON_parse_error text
      else path ++ " " ++ show_Z status ++ ": " ++ text
  end.

(** What a first attempt and, when it fails, a second attempt made with
    the path [path] give. *)
Definition two_attempts {RT : Runtime} (path : string) (r1 r2 : Reply) : Result JsVal :=
  match reply_value r1 with
  | Some v => Ok v
  | None =>
      match reply_value r2 with
      | Some v => Ok v
      | None => Throw (reply_error path r2)
      end
  end.

(** The query strings of the GET requests of [listOrders] and of
    [getOrder]. *)
Definition orders_query (s e page : string) : string :=
  "StartDate=" ++ urlencode s ++ "&EndDate=" ++ urlencode e
  ++ "&Page=" ++ urlencode page ++ "&PageSize=500".

Definition order_query (id : string) : string := "OrderID=" ++ urlencode id.

(** The paths that the GET requests are made with. *)
Definition orders_get_path (s e page : string) : string :=
  "/api/ThirdParty/GetOrders?" ++ orders_query s e page.

Definition order_get_path (id : string) : string :=
  "/api/ThirdParty/GetOrder?" ++ order_query id.

(** The requests of [listOrders]. *)
Definition orders_post (b t s e : string) (page : jsnum) : Request :=
  {| url := strip_slash b ++ "/api/ThirdParty/GetOrders"; bearer := t; method := POST;
     params := [("StartDate", JStr s); ("EndDate", JStr e); ("Page", JNum page);
                ("PageSize", JNum (num_of_Z 500))] |}.

Definition orders_get (b t s e page : string) : Request :=
  {| url := strip_slash b ++ orders_get_path s e page; bearer := t; method := GET;
     params := [("StartDate", JStr s); ("EndDate", JStr e); ("Page", JStr page);
                ("PageSize", JStr "500")] |}.

(** The requests of [getOrder]. *)
Definition order_post (b t : string) (id : JsVal) : Request :=
  {| url := strip_slash b ++ "/api/ThirdParty/GetOrder"; bearer := t; method := POST;
     params := [("OrderID", id)] |}.

Definition order_get (b t id : string) : Request :=
  {| url := strip_slash b ++ order_get_path id; bearer := t; method := GET;
     params := [("OrderID", JStr id)] |}.

(** The running totals after an order [o] whose lines are [lines], in the
    words of the specification: one more order, the three sums of the
    lines, and the clamped header discount of the order. *)
Definition after_order {RT : Runtime} (env : Env) (a : Acc) (o : JsVal) (lines : list JsVal)
    : Acc :=
  let hints := FOOD_HINTS (FOOD_CATEGORY_HINTS env) in
  {| a_orders := S (a_orders a);
     a_food := add_all (a_food a) (map clamped_amount (food_lines hints lines));
     a_voids := add_all (a_voids a) (map clamped_amount (voided_lines lines));
     a_promos := num_add (add_all (a_promos a) (map clamped_discount (kept_lines lines)))
                   (Math_max0 (orderHeaderDiscount o)) |}.

(** What processing the order [o] gives: the totals after it, or the
    TypeError of a collection of lines that cannot be iterated. *)
Definition order_outcome {RT : Runtime} (env : Env) (a : Acc) (o : JsVal) : Result Acc :=
  match iterate (orderLines o) with
  | Ok lines => Ok (after_order env a o lines)
  | Throw e => Throw e
  end.

(** The identifier [row?.OrderID ?? row?.Id ?? row?.ID]. *)
Definition order_id (row : JsVal) : JsVal :=
  js_coalesce (get row "OrderID") (js_coalesce (get row "Id") (get row "ID")).

(** A world that answers every call to [GetOrders] with the same page. *)
Definition endless_world (page : JsVal) : World :=
  {| orders_replies := fun _ => Response 200 "" (Some page);
     orders_calls := 0;
     order_replies := fun _ => NoResponse "connection refused";
     order_calls := 0;
     sent := [];
     store_replies := fun _ => None;
     store_calls := 0;
     written := [];
     clock := fun _ => 1759900000000;
     clock_reads := 0;
     console := [] |}.

(** A reply to [GetOrders] after which no further page is asked for: a
    failure, or a page of fewer than 500 rows. *)
Definition ends_paging (r : Reply) : Prop :=
  match reply_value r with
  | Some payload => (rows_count payload < 500)%nat
  | None => True
  end.

(** The location has a base address and a token, both non-empty. *)
Definition configured (cfg : Cfg) : bool :=
  match base cfg, token cfg with
  | Some b, Some t => nonempty b && nonempty t
  | _, _ => false
  end.

Definition line_key (line : LogLine) : string :=
  match line with
  | Skipped k | Summary k _ | Failed k _ => k
  end.

Definition is_summary (line : LogLine) : bool :=
  match line with Summary _ _ => true | _ => false end.

Definition is_skipped (line : LogLine) : bool :=
  match line with Skipped _ => true | _ => false end.

(** The document that [writeOverrides] builds at time [t]. *)
Definition override_doc (locKey weekISO : string) (totals : Totals) (t : Z) : Doc :=
  {| doc_path := "companies/aidan/locations/" ++ locKey ++ "/overrides/" ++ weekISO;
     food_sales := food totals; doc_voids := voids totals; comps := promos totals;
     source_orders := orders totals; days_scanned := 7; last_run := iso_string t |}.

(** The day number of the Monday on or before day [d]. *)
Definition monday_of (d : Z) : Z := d - (d + 3) mod 7.

(** An environment whose time-zone offset is not a number. *)
Definition no_offset_env : Env :=
  {| WEEK_OF := Some "2025-10-06";
     FOOD_CATEGORY_HINTS := Some "Food";
     SILVERWARE_TZ_OFFSET_MINUTES := Some "EDT";
     SILVERWARE_BASE_BEACON := Some "https://beacon.example/";
     SILVERWARE_TOKEN_BEACON := Some "secret";
     SILVERWARE_BASE_TULIA := None;
     SILVERWARE_TOKEN_TULIA := None;
     SILVERWARE_BASE_PROHIBITION := None;
     SILVERWARE_TOKEN_PROHIBITION := None;
     SILVERWARE_BASE_CESOIR := None;
     SILVERWARE_TOKEN_CESOIR := None |}.

(** A row without lines, and the order that the API returns for it. *)
Definition bare_row : JsVal := JObj [("Id", jnum 7); ("DiscountTotal", jnum 9)].
Definition fetched_order : JsVal := JObj [("OrderID", jnum 7); ("Lines", JArr [food_line])].

Definition bare_row_world : World :=
  world_of [Response 200 "" (Some (JArr [bare_row]))]
    [Response 500 "busy" None; Response 200 "" (Some fetched_order)].

(** * Properties *)

(** ** Numbers *)

Lemma num_or_zero_not_nan (x : jsnum) : num_or x num_zero <> NaN.
Proof.
  unfold num_or. destruct x; simpl; try discriminate.
  destruct (Qeq_bool q 0); discriminate.
Qed.

Lemma num_or_not_nan (x y : jsnum) : x <> NaN -> y <> NaN -> num_or x y <> NaN.
Proof. unfold num_or. destruct (num_truthy x); auto. Qed.

Lemma num_or_falsy (x y : jsnum) : num_truthy x = false -> num_or x y = y.
Proof. unfold num_or. intros ->. reflexivity. Qed.

Lemma num_or_truthy (x y : jsnum) : num_truthy x = true -> num_or x y = x.
Proof. unfold num_or. intros ->. reflexivity. Qed.

Lemma Math_max0_ge0 (x : jsnum) : x <> NaN -> num_ge0 (Math_max0 x) = true.
Proof.
  destruct x; simpl; intros H; try reflexivity; try congruence.
  destruct (Qle_bool 0 q) eqn:E; simpl; auto.
Qed.

Lemma num_add_ge0 (x y : jsnum) :
  num_ge0 x = true -> num_ge0 y = true -> num_ge0 (num_add x y) = true.
Proof.
  destruct x, y; cbn [num_add num_ge0 num_le]; try discriminate; auto.
  intros Hx Hy. apply Qle_bool_iff in Hx, Hy. apply Qle_bool_iff.
  rewrite (Qred_correct (q + q0)). lra.
Qed.

Lemma num_add_le (x y : jsnum) :
  num_ge0 x = true -> num_ge0 y = true -> num_le x (num_add x y) = true.
Proof.
  destruct x, y; cbn [num_add num_ge0 num_le]; try discriminate; auto.
  intros Hx Hy. apply Qle_bool_iff in Hx, Hy. apply Qle_bool_iff.
  rewrite (Qred_correct (q + q0)). lra.
Qed.

Lemma num_le_refl (x : jsnum) : num_ge0 x = true -> num_le x x = true.
Proof.
  destruct x; simpl; try discriminate; auto.
  intros _. apply Qle_bool_iff. lra.
Qed.

Section ExtractorFacts.
Context {RT : Runtime}.

Lemma num_not_nan (v : JsVal) : num v <> NaN.
Proof. unfold num. apply num_or_zero_not_nan. Qed.

(** A falsy result of [num] is the number 0 itself. *)
Lemma num_falsy (v : JsVal) : num_truthy (num v) = false -> num v = num_zero.
Proof.
  unfold num, num_or.
  destruct (num_truthy (match v with JNum n => n | _ => if truthy v then js_Number v else num_zero end)) eqn:E.
  - intros H. rewrite H in E. discriminate.
  - reflexivity.
Qed.

Ltac not_nan :=
  repeat first [ apply num_not_nan | discriminate | apply num_or_not_nan ].

Lemma lineTotal_not_nan (ln : JsVal) : lineTotal ln <> NaN.
Proof. unfold lineTotal. not_nan. Qed.

Lemma lineDiscount_not_nan (ln : JsVal) : lineDiscount ln <> NaN.
Proof.
  unfold lineDiscount. not_nan.
Qed.

Lemma orderHeaderDiscount_not_nan (o : JsVal) : orderHeaderDiscount o <> NaN.
Proof.
  unfold orderHeaderDiscount. not_nan.
Qed.

End ExtractorFacts.

(** ** The extractors *)

Section Extractors.
Context {RT : Runtime}.

Lemma nonzero_num (v : JsVal) : nonzero (num v) = num_truthy (num v).
Proof.
  pose proof (num_not_nan v) as H. unfold nonzero.
  destruct (num v); cbn; congruence.
Qed.

(** C5.  [lineTotal] returns, among the coerced values of [NetTotal],
    [LineTotal], [ExtendedPrice], [Total] and [Amount] in this order, the
    first that is not zero, and zero when all are; when [NetTotal] and
    [LineTotal] both coerce to a non-zero number, the value of [NetTotal]
    is returned. *)
Theorem lineTotal_first_nonzero (line : JsVal) :
  lineTotal line
  = first_such nonzero (map (fun k => num (get line k)) amount_fields) num_zero
  /\ (nonzero (num (get line "NetTotal")) = true ->
      nonzero (num (get line "LineTotal")) = true ->
      lineTotal line = num (get line "NetTotal")).
Proof.
  split.
  - unfold lineTotal, first_such, amount_fields. cbn [map find].
    rewrite !nonzero_num.
    repeat match goal with
           | |- context [num_or (num ?v) _] =>
               let E := fresh "E" in
               destruct (num_truthy (num v)) eqn:E;
               [ rewrite (num_or_truthy _ _ E); reflexivity
               | rewrite (num_or_falsy _ _ E) ]
           end.
    destruct (num_truthy (num (get line "Amount"))) eqn:EA; [reflexivity|].
    apply num_falsy; assumption.
  - intros H _. rewrite nonzero_num in H. unfold lineTotal.
    apply num_or_truthy; assumption.
Qed.

End Extractors.

(** C6, as the code has it.  [orderLines] returns the first truthy value
    among the fields [Lines], [Items], [OrderLines], [OrderItems] and
    [CheckLines], an empty array when there is none; when each of these
    fields is absent or holds an array, the result is the first array
    present, and it is an array. *)
Theorem orderLines_first_truthy (o : JsVal) :
  orderLines o = first_such truthy (map (get o) line_fields) empty_array
  /\ (Forall (fun k => get o k = JUndef \/ isArray (get o k) = true) line_fields ->
      isArray (orderLines o) = true
      /\ orderLines o = first_such isArray (map (get o) line_fields) empty_array).
Proof.
  split.
  - unfold orderLines, first_such, line_fields, js_or. cbn [map find].
    repeat match goal with
           | |- context [truthy (get o ?k)] => destruct (truthy (get o k)); [reflexivity|]
           end.
    reflexivity.
  - intros H. unfold line_fields in H.
    repeat match goal with
           | H : Forall _ (_ :: _) |- _ => inversion H; clear H; subst
           end.
    unfold orderLines, first_such, line_fields, js_or. cbn [map find].
    repeat match goal with
           | H : get o ?k = JUndef \/ isArray (get o ?k) = true |- _ =>
               destruct H as [H | H];
               [ rewrite H; cbn [truthy isArray]
               | destruct (get o k); try discriminate H; cbn [truthy isArray];
                 split; reflexivity ]
           end.
    split; reflexivity.
Qed.

(** C6, as the claim words it, fails: on an order whose [Lines] field is a
    string the result is that string, not an array, although [Items] holds
    an array. *)
Lemma orderLines_returns_text :
  orderLines odd_order = JStr "abc"
  /\ isArray (orderLines odd_order) = false
  /\ isArray (get odd_order "Items") = true.
Proof. repeat split. Qed.

Lemma orderLines_first_truthy_witness :
  isArray (orderLines items_order) = true
  /\ orderLines items_order = first_such isArray (map (get items_order) line_fields) empty_array.
Proof.
  apply (proj2 (orderLines_first_truthy items_order)).
  repeat constructor; solve [left; reflexivity | right; reflexivity].
Defined.

Lemma lineTotal_first_nonzero_witness :
  @lineTotal example_runtime food_line = @num example_runtime (get food_line "NetTotal").
Proof.
  apply (proj2 (@lineTotal_first_nonzero example_runtime food_line)); reflexivity.
Defined.

(** ** One line of an order *)

Section Lines.
Context {RT : Runtime}.
Variable env : Env.

Lemma includes_empty_name (h : string) : nonempty h = true -> includes "" h = false.
Proof. destruct h; [discriminate | reflexivity]. Qed.

Lemma FOOD_HINTS_nonempty (e : option string) (h : string) :
  In h (FOOD_HINTS e) -> nonempty h = true.
Proof. unfold FOOD_HINTS. intros H. apply filter_In in H. tauto. Qed.

Lemma no_hint_in_empty_name (hints : list string) :
  (forall h, In h hints -> nonempty h = true) ->
  existsb (fun h => includes "" h) hints = false.
Proof.
  induction hints as [| h hints IH]; intros H; cbn [existsb]; [reflexivity|].
  rewrite (includes_empty_name h) by (apply H; left; reflexivity).
  apply IH. intros h' Hin. apply H. right. exact Hin.
Qed.

(** The loop over the lines of an order computes three separate sums. *)
Lemma lines_totals (lines : list JsVal) :
  forall a : Acc,
    let a' := fold_left (line_step env) lines a in
    a_orders a' = a_orders a
    /\ a_food a'
       = add_all (a_food a)
           (map clamped_amount (food_lines (FOOD_HINTS (FOOD_CATEGORY_HINTS env)) lines))
    /\ a_voids a' = add_all (a_voids a) (map clamped_amount (voided_lines lines))
    /\ a_promos a' = add_all (a_promos a) (map clamped_discount (kept_lines lines)).
Proof.
  induction lines as [| ln lines IH]; intros a; cbv zeta; cbn [fold_left].
  - repeat split.
  - destruct (IH (line_step env a ln)) as (Ho & Hf & Hv & Hp).
    rewrite Ho, Hf, Hv, Hp. clear IH Ho Hf Hv Hp.
    unfold food_lines, kept_lines, voided_lines, add_all, line_step. cbn [filter].
    destruct (isVoided ln); cbn [negb filter map fold_left a_orders a_food a_voids a_promos].
    + repeat split.
    + destruct (looksLikeFood _ ln);
        cbn [map fold_left a_orders a_food a_voids a_promos]; repeat split.
Qed.

(** C1, as the code has it.  A line that the void classifier does not flag
    adds its discount, clamped at zero, to the promotions total, whether it
    is food or not; a line that the void classifier flags leaves the
    promotions total as it was.  Over the lines of an order, the promotions
    total grows by the clamped discounts of the lines that are not voided. *)
Theorem promos_from_lines_not_voided (a : Acc) (ln : JsVal) (lines : list JsVal) :
  (isVoided ln = false ->
   a_promos (line_step env a ln) = num_add (a_promos a) (Math_max0 (lineDiscount ln)))
  /\ (isVoided ln = true -> a_promos (line_step env a ln) = a_promos a)
  /\ a_promos (fold_left (line_step env) lines a)
     = add_all (a_promos a) (map clamped_discount (kept_lines lines)).
Proof.
  split; [| split].
  - unfold line_step. intros ->. reflexivity.
  - unfold line_step. intros ->. reflexivity.
  - apply (lines_totals lines a).
Qed.

(** C3.  A line that the void classifier flags adds its amount, clamped at
    zero, to the voided total and leaves the food total (and everything
    else) as it was, whatever category it carries.  Over the lines of an
    order, the voided total grows by the clamped amounts of the voided
    lines and the food total by those of the food lines that are not
    voided. *)
Theorem voided_line_is_not_food (a : Acc) (ln : JsVal) (lines : list JsVal) :
  (isVoided ln = true ->
   line_step env a ln
   = {| a_orders := a_orders a; a_food := a_food a;
        a_voids := num_add (a_voids a) (Math_max0 (lineTotal ln));
        a_promos := a_promos a |})
  /\ a_voids (fold_left (line_step env) lines a)
     = add_all (a_voids a) (map clamped_amount (voided_lines lines))
  /\ a_food (fold_left (line_step env) lines a)
     = add_all (a_food a)
         (map clamped_amount (food_lines (FOOD_HINTS (FOOD_CATEGORY_HINTS env)) lines)).
Proof.
  split; [| split].
  - unfold line_step. intros ->. reflexivity.
  - apply (lines_totals lines a).
  - apply (lines_totals lines a).
Qed.

(** C10.  A line whose category name is the empty string is not food under
    any setting of [FOOD_CATEGORY_HINTS], and it leaves the food total as
    it was. *)
Theorem empty_category_is_not_food (hints : option string) (a : Acc) (line : JsVal) :
  lineCategoryName line = "" ->
  looksLikeFood (FOOD_HINTS hints) line = false
  /\ a_food (line_step env a line) = a_food a.
Proof.
  intros Hname.
  assert (Hno : forall e, looksLikeFood (FOOD_HINTS e) line = false).
  { intros e. unfold looksLikeFood. rewrite Hname.
    apply no_hint_in_empty_name. apply FOOD_HINTS_nonempty. }
  split; [apply Hno|].
  unfold line_step. destruct (isVoided line); [reflexivity|].
  rewrite Hno. reflexivity.
Qed.

End Lines.

(** C1, as the claim words it, fails: the voided example line carries a
    discount of 2 and the promotions total stays at 0. *)
Lemma voided_line_discount_dropped :
  @isVoided example_runtime voided_line = true
  /\ Math_max0 (@lineDiscount example_runtime voided_line) = num_of_Z 2
  /\ a_promos (@line_step example_runtime example_env acc0 voided_line)
     <> num_add (a_promos acc0) (Math_max0 (@lineDiscount example_runtime voided_line)).
Proof.
  split; [reflexivity|]. split; [reflexivity|].
  vm_compute. discriminate.
Qed.

Lemma promos_from_lines_not_voided_witness :
  a_promos (@line_step example_runtime example_env acc0 food_line) = num_of_Z 1
  /\ a_promos (@line_step example_runtime example_env acc0 voided_line) = num_zero.
Proof.
  split.
  - rewrite (proj1 (@promos_from_lines_not_voided example_runtime example_env acc0 food_line
                      [food_line; voided_line]));
      reflexivity.
  - rewrite (proj1 (proj2 (@promos_from_lines_not_voided example_runtime example_env acc0
                             voided_line [food_line; voided_line])));
      reflexivity.
Defined.

Lemma voided_line_is_not_food_witness :
  @line_step example_runtime example_env acc0 voided_line
  = {| a_orders := 0; a_food := num_zero; a_voids := num_of_Z 5; a_promos := num_zero |}.
Proof.
  rewrite (proj1 (@voided_line_is_not_food example_runtime example_env acc0 voided_line
                    [food_line; voided_line]));
    reflexivity.
Defined.

Lemma empty_category_is_not_food_witness :
  @looksLikeFood example_runtime (FOOD_HINTS (Some "Food, Kitchen ,,Bar")) plain_line = false
  /\ a_food (@line_step example_runtime example_env acc0 plain_line) = a_food acc0.
Proof.
  apply (@empty_category_is_not_food example_runtime example_env (Some "Food, Kitchen ,,Bar")
           acc0 plain_line).
  reflexivity.
Defined.

(** ** Rounding to cents *)


Lemma round2_Fin (q : Q) :
  round2 (Fin q) = Fin (Qred (inject_Z (Qfloor (Qred (q * 100) + (1 # 2))) / 100)).
Proof. reflexivity. Qed.


Lemma round2_ge0 (x : jsnum) : num_ge0 x = true -> num_ge0 (round2 x) = true.
Proof.
  destruct x as [| | | q]; try (intros H; exact H).
  rewrite round2_Fin. cbn [num_ge0]. intros H.
  apply Qle_bool_iff in H. apply Qle_bool_iff.
  rewrite Qred_correct.
  assert (Hf : (0 <= Qfloor (Qred (q * 100) + (1 # 2)))%Z).
  { change 0%Z with (Qfloor 0). apply Qfloor_resp_le.
    rewrite Qred_correct. lra. }
  rewrite Zle_Qle in Hf. change (inject_Z 0) with 0%Q in Hf.
  set (i := inject_Z (Qfloor (Qred (q * 100) + (1 # 2)))) in *.
  clearbody i. apply Qmult_le_0_compat; [exact Hf | discriminate].
Qed.

(** ** Inversion of the monadic steps *)

Lemma bind_Ok {A B} (m : M A) (k : A -> M B) (w w' : World) (b : B) :
  bind m k w = Some (Ok b, w') ->
  exists a w1, m w = Some (Ok a, w1) /\ k a w1 = Some (Ok b, w').
Proof.
  unfold bind. destruct (m w) as [[[a | e] w1] |]; try discriminate.
  intros H. exists a, w1. split; [reflexivity | exact H].
Qed.

Lemma lift_Ok {A} (r : Result A) (w w' : World) (a : A) :
  lift r w = Some (Ok a, w') -> r = Ok a /\ w' = w.
Proof. unfold lift. intros H. inversion H. split; reflexivity. Qed.

Lemma ret_Ok {A} (x a : A) (w w' : World) :
  ret x w = Some (Ok a, w') -> a = x /\ w' = w.
Proof. unfold ret. intros H. inversion H. split; reflexivity. Qed.

Section CollectFacts.
Context {RT : Runtime}.
Variable env : Env.

Lemma collectForWeek_Ok (budget : nat) (b t weekISO : string) (w w' : World) (tot : Totals) :
  collectForWeek env budget b t weekISO w = Some (Ok tot, w') ->
  exists window a,
    rangeForWeekISO weekISO (TZ_OFFSET_MIN env) = Ok window
    /\ paging env budget b t (start window) (end_ window) 1 acc0 w = Some (Ok a, w')
    /\ tot = {| t_start := start window; t_end := end_ window; orders := a_orders a;
                food := round2 (a_food a); voids := round2 (a_voids a);
                promos := round2 (a_promos a) |}.
Proof.
  unfold collectForWeek. intros H.
  apply bind_Ok in H. destruct H as (window & w1 & Hw & H).
  apply lift_Ok in Hw. destruct Hw as [Hw ->].
  apply bind_Ok in H. destruct H as (a & w2 & Hp & H).
  apply ret_Ok in H. destruct H as [-> ->].
  exists window, a. auto.
Qed.


End CollectFacts.

(** ** The totals are never negative *)

Section NonNegative.
Context {RT : Runtime}.
Variable env : Env.

Lemma add_clamped_ge0 (x y : jsnum) :
  num_ge0 x = true -> y <> NaN -> num_ge0 (num_add x (Math_max0 y)) = true.
Proof. intros Hx Hy. apply num_add_ge0; [exact Hx | apply Math_max0_ge0; exact Hy]. Qed.

Lemma add_clamped_le (x y : jsnum) :
  num_ge0 x = true -> y <> NaN -> num_le x (num_add x (Math_max0 y)) = true.
Proof. intros Hx Hy. apply num_add_le; [exact Hx | apply Math_max0_ge0; exact Hy]. Qed.

Lemma line_step_ok (a : Acc) (ln : JsVal) : acc_ok a -> acc_ok (line_step env a ln).
Proof.
  intros (Hf & Hv & Hp). unfold line_step, acc_ok.
  destruct (isVoided ln); cbn [a_food a_voids a_promos].
  - repeat split; auto using add_clamped_ge0, lineTotal_not_nan.
  - destruct (looksLikeFood _ ln);
      repeat split; auto using add_clamped_ge0, lineTotal_not_nan, lineDiscount_not_nan.
Qed.

Lemma line_step_le (a : Acc) (ln : JsVal) : acc_ok a -> acc_le a (line_step env a ln).
Proof.
  intros (Hf & Hv & Hp). unfold line_step, acc_le.
  destruct (isVoided ln); cbn [a_food a_voids a_promos].
  - repeat split; auto using add_clamped_le, num_le_refl, lineTotal_not_nan.
  - destruct (looksLikeFood _ ln); repeat split;
      auto using add_clamped_le, num_le_refl, lineTotal_not_nan, lineDiscount_not_nan.
Qed.

Lemma lines_ok (lines : list JsVal) (a : Acc) :
  acc_ok a -> acc_ok (fold_left (line_step env) lines a).
Proof.
  revert a. induction lines as [| ln lines IH]; intros a Ha; cbn [fold_left]; [exact Ha|].
  apply IH. apply line_step_ok. exact Ha.
Qed.

Lemma row_step_ok (b t : string) (a a' : Acc) (row : JsVal) (w w' : World) :
  acc_ok a -> row_step env b t a row w = Some (Ok a', w') -> acc_ok a'.
Proof.
  intros Ha H. unfold row_step in H.
  apply bind_Ok in H. destruct H as (o & w1 & _ & H).
  apply bind_Ok in H. destruct H as (lines & w2 & _ & H).
  apply ret_Ok in H. destruct H as [-> _].
  match goal with
  | |- acc_ok {| a_orders := _; a_food := a_food ?f; a_voids := _; a_promos := _ |} =>
      assert (Hf : acc_ok f) by (apply lines_ok; exact Ha); destruct Hf as (H1 & H2 & H3)
  end.
  unfold acc_ok. cbn [a_food a_voids a_promos].
  repeat split; auto using add_clamped_ge0, orderHeaderDiscount_not_nan.
Qed.

Lemma rows_loop_ok (b t : string) (rows : list JsVal) (a a' : Acc) (w w' : World) :
  acc_ok a -> rows_loop env b t rows a w = Some (Ok a', w') -> acc_ok a'.
Proof.
  revert a w. induction rows as [| row rows IH]; intros a w Ha H; cbn [rows_loop] in H.
  - apply ret_Ok in H. destruct H as [-> _]. exact Ha.
  - apply bind_Ok in H. destruct H as (a1 & w1 & Hrow & H).
    apply (IH a1 w1); [| exact H]. apply (row_step_ok _ _ _ _ _ _ _ Ha Hrow).
Qed.

Lemma paging_ok (budget : nat) (b t s e : string) (page : nat) (a a' : Acc) (w w' : World) :
  acc_ok a -> paging env budget b t s e page a w = Some (Ok a', w') -> acc_ok a'.
Proof.
  revert page a w. induction budget as [| budget IH]; intros page a w Ha H;
    cbn [paging] in H; [discriminate|].
  apply bind_Ok in H. destruct H as (payload & w1 & _ & H).
  destruct (rows_of payload) as [| | | | | [| row more_rows] |];
    try (apply ret_Ok in H; destruct H as [-> _]; exact Ha).
  apply bind_Ok in H. destruct H as (a1 & w2 & Hrows & H).
  pose proof (rows_loop_ok _ _ _ _ _ _ _ Ha Hrows) as Ha1.
  destruct (500 <=? List.length (row :: more_rows))%nat.
  - apply (IH _ _ _ Ha1 H).
  - apply ret_Ok in H. destruct H as [-> _]. exact Ha1.
Qed.

Lemma acc0_ok : acc_ok acc0.
Proof. repeat split. Qed.

(** C2.  Whatever the upstream sends, the totals that the aggregator
    returns are not negative, and no line lowers a running total: every
    amount is clamped at zero before it is added. *)
Theorem totals_never_negative :
  (forall budget b t weekISO w w' tot,
      collectForWeek env budget b t weekISO w = Some (Ok tot, w') ->
      num_ge0 (food tot) = true /\ num_ge0 (voids tot) = true
      /\ num_ge0 (promos tot) = true)
  /\ (forall a ln, acc_ok a -> acc_ok (line_step env a ln) /\ acc_le a (line_step env a ln)).
Proof.
  split.
  - intros budget b t weekISO w w' tot H.
    apply collectForWeek_Ok in H. destruct H as (window & a & _ & Hp & ->).
    apply paging_ok in Hp; [| exact acc0_ok]. destruct Hp as (Hf & Hv & Hpr).
    cbn [food voids promos]. repeat split; apply round2_ge0; assumption.
  - intros a ln Ha. split; [apply line_step_ok | apply line_step_le]; exact Ha.
Qed.

End NonNegative.

(** ** What the steps leave alone *)

Section Frames.
Variable R : World -> World -> Prop.
Hypothesis R_refl : forall w, R w w.
Hypothesis R_trans : forall w1 w2 w3, R w1 w2 -> R w2 w3 -> R w1 w3.

Lemma keeps_ret {A} (a : A) : keeps R (ret a).
Proof. intros w r w' H. inversion H. apply R_refl. Qed.

Lemma keeps_throw {A} (e : string) : keeps R (@throw A e).
Proof. intros w r w' H. inversion H. apply R_refl. Qed.

Lemma keeps_lift {A} (x : Result A) : keeps R (lift x).
Proof. intros w r w' H. inversion H. apply R_refl. Qed.

Lemma keeps_bind {A B} (m : M A) (k : A -> M B) :
  keeps R m -> (forall a, keeps R (k a)) -> keeps R (bind m k).
Proof.
  intros Hm Hk w r w' H. unfold bind in H.
  destruct (m w) as [[[a | e] w1] |] eqn:E; try discriminate.
  - apply (R_trans _ w1); [apply (Hm _ _ _ E) | apply (Hk a _ _ _ H)].
  - inversion H; subst. apply (Hm _ _ _ E).
Qed.

Lemma keeps_try_catch {A} (m : M A) (h : string -> M A) :
  keeps R m -> (forall e, keeps R (h e)) -> keeps R (try_catch m h).
Proof.
  intros Hm Hh w r w' H. unfold try_catch in H.
  destruct (m w) as [[[a | e] w1] |] eqn:E; try discriminate.
  - inversion H; subst. apply (Hm _ _ _ E).
  - apply (R_trans _ w1); [apply (Hm _ _ _ E) | apply (Hh e _ _ _ H)].
Qed.

End Frames.

Lemma total_ret {A} (a : A) : total (ret a).
Proof. intros w. eexists _, _. reflexivity. Qed.

Lemma total_throw {A} (e : string) : total (@throw A e).
Proof. intros w. eexists _, _. reflexivity. Qed.

Lemma total_lift {A} (x : Result A) : total (lift x).
Proof. intros w. eexists _, _. reflexivity. Qed.

Lemma total_bind {A B} (m : M A) (k : A -> M B) :
  total m -> (forall a, total (k a)) -> total (bind m k).
Proof.
  intros Hm Hk w. unfold bind. destruct (Hm w) as ([a | e] & w1 & ->).
  - apply Hk.
  - eexists _, _. reflexivity.
Qed.

Lemma total_try_catch {A} (m : M A) (h : string -> M A) :
  total m -> (forall e, total (h e)) -> total (try_catch m h).
Proof.
  intros Hm Hh w. unfold try_catch. destruct (Hm w) as ([a | e] & w1 & ->).
  - eexists _, _. reflexivity.
  - apply Hh.
Qed.

Lemma untouched_by_http_refl (w : World) : untouched_by_http w w.
Proof. repeat split. Qed.

Lemma untouched_by_http_trans (w1 w2 w3 : World) :
  untouched_by_http w1 w2 -> untouched_by_http w2 w3 -> untouched_by_http w1 w3.
Proof. unfold untouched_by_http. intuition congruence. Qed.

Lemma untouched_by_details_refl (w : World) : untouched_by_details w w.
Proof. repeat split. Qed.

Lemma untouched_by_details_trans (w1 w2 w3 : World) :
  untouched_by_details w1 w2 -> untouched_by_details w2 w3 -> untouched_by_details w1 w3.
Proof. unfold untouched_by_details, untouched_by_http. intuition congruence. Qed.

Section ClientFacts.
Context {RT : Runtime}.
Variable env : Env.

Lemma fetch_total (ep : Endpoint) (req : Request) : total (fetch ep req).
Proof. intros w. destruct ep; eexists _, _; reflexivity. Qed.

Lemma fetch_keeps_http (ep : Endpoint) (req : Request) :
  keeps untouched_by_http (fetch ep req).
Proof.
  intros w r w' H. destruct ep; inversion H; subst; repeat split.
Qed.

Lemma fetch_keeps_details (req : Request) :
  page_param req = [] -> keeps untouched_by_details (fetch GetOrder req).
Proof.
  intros Hp w r w' H. inversion H; subst.
  repeat split. unfold pages_requested. cbn [sent flat_map]. rewrite Hp. reflexivity.
Qed.

Lemma swFetch_total (b t : string) (ep : Endpoint) (m : Method) (fields : list (string * JsVal)) :
  total (swFetch b t ep m fields).
Proof.
  unfold swFetch. apply total_bind; [apply fetch_total|].
  intros [message | status text [v |]];
    repeat match goal with
           | |- total (if ?c then _ else _) => destruct c
           end; auto using total_ret, total_throw.
Qed.

Lemma swFetch_keeps (R : World -> World -> Prop) (b t : string) (ep : Endpoint) (m : Method)
    (fields : list (string * JsVal)) :
  (forall w, R w w) -> (forall w1 w2 w3, R w1 w2 -> R w2 w3 -> R w1 w3) ->
  (forall req, params req = fields -> keeps R (fetch ep req)) ->
  keeps R (swFetch b t ep m fields).
Proof.
  intros Hrefl Htrans Hfetch. unfold swFetch.
  apply keeps_bind; [exact Htrans | apply Hfetch; reflexivity |].
  intros [message | status text [v |]];
    repeat match goal with
           | |- keeps R (if ?c then _ else _) => destruct c
           end; auto using keeps_ret, keeps_throw.
Qed.

Lemma listOrders_total (b t s e : string) (page : nat) : total (listOrders b t s e page).
Proof.
  unfold listOrders. apply total_try_catch; [| intros _]; apply swFetch_total.
Qed.

Lemma listOrders_keeps_http (b t s e : string) (page : nat) :
  keeps untouched_by_http (listOrders b t s e page).
Proof.
  unfold listOrders.
  apply keeps_try_catch;
    [exact untouched_by_http_trans | | intros _];
    (apply swFetch_keeps;
     [exact untouched_by_http_refl | exact untouched_by_http_trans
     | intros req _; apply fetch_keeps_http]).
Qed.

Lemma getOrder_total (b t : string) (orderId : JsVal) : total (getOrder b t orderId).
Proof.
  unfold getOrder. apply total_try_catch; [| intros _]; apply swFetch_total.
Qed.

Lemma getOrder_keeps_details (b t : string) (orderId : JsVal) :
  keeps untouched_by_details (getOrder b t orderId).
Proof.
  unfold getOrder.
  apply keeps_try_catch;
    [exact untouched_by_details_trans | | intros _];
    (apply swFetch_keeps;
     [exact untouched_by_details_refl | exact untouched_by_details_trans |]);
    intros req Hreq; apply fetch_keeps_details; unfold page_param; rewrite Hreq; reflexivity.
Qed.

Lemma row_step_total (b t : string) (a : Acc) (row : JsVal) : total (row_step env b t a row).
Proof.
  unfold row_step. apply total_bind.
  - destruct (truthy _); [apply total_ret | apply getOrder_total].
  - intros o. apply total_bind; [apply total_lift | intros lines; apply total_ret].
Qed.

Lemma row_step_keeps_details (b t : string) (a : Acc) (row : JsVal) :
  keeps untouched_by_details (row_step env b t a row).
Proof.
  unfold row_step.
  apply keeps_bind; [exact untouched_by_details_trans | |].
  - destruct (truthy _);
      [apply keeps_ret; exact untouched_by_details_refl | apply getOrder_keeps_details].
  - intros o.
    apply keeps_bind; [exact untouched_by_details_trans | |].
    + apply keeps_lift. exact untouched_by_details_refl.
    + intros lines. apply keeps_ret. exact untouched_by_details_refl.
Qed.

Lemma rows_loop_total (b t : string) (rows : list JsVal) (a : Acc) :
  total (rows_loop env b t rows a).
Proof.
  revert a. induction rows as [| row rows IH]; intros a; cbn [rows_loop].
  - apply total_ret.
  - apply total_bind; [apply row_step_total | intros a'; apply IH].
Qed.

Lemma rows_loop_keeps_details (b t : string) (rows : list JsVal) (a : Acc) :
  keeps untouched_by_details (rows_loop env b t rows a).
Proof.
  revert a. induction rows as [| row rows IH]; intros a; cbn [rows_loop].
  - apply keeps_ret. exact untouched_by_details_refl.
  - apply keeps_bind;
      [exact untouched_by_details_trans
      | apply row_step_keeps_details | intros a'; apply IH].
Qed.

Lemma details_keep_http (w w' : World) : untouched_by_details w w' -> untouched_by_http w w'.
Proof. intros [H _]. exact H. Qed.

Lemma paging_keeps_http (budget : nat) (b t s e : string) (page : nat) (a : Acc) :
  keeps untouched_by_http (paging env budget b t s e page a).
Proof.
  revert page a. induction budget as [| budget IH]; intros page a; cbn [paging].
  - intros w r w' H. discriminate.
  - apply keeps_bind;
      [exact untouched_by_http_trans
      | apply listOrders_keeps_http |].
    intros payload.
    destruct (rows_of payload) as [| | | | | [| row more_rows] |];
      try (apply keeps_ret; exact untouched_by_http_refl).
    apply keeps_bind; [exact untouched_by_http_trans | |].
    + intros w r w' H. apply details_keep_http.
      apply (rows_loop_keeps_details _ _ _ _ _ _ _ H).
    + intros a'. destruct (500 <=? _)%nat; [apply IH | apply keeps_ret].
      exact untouched_by_http_refl.
Qed.

Lemma collectForWeek_keeps_http (budget : nat) (b t weekISO : string) :
  keeps untouched_by_http (collectForWeek env budget b t weekISO).
Proof.
  unfold collectForWeek.
  apply keeps_bind; [exact untouched_by_http_trans | |].
  - apply keeps_lift. exact untouched_by_http_refl.
  - intros window.
    apply keeps_bind; [exact untouched_by_http_trans | |].
    + apply paging_keeps_http.
    + intros a. apply keeps_ret. exact untouched_by_http_refl.
Qed.

End ClientFacts.

(** ** Paging *)

Section Paging.
Context {RT : Runtime}.
Variable env : Env.

Lemma listOrders_served (b t s e : string) (page : nat) (w : World) (payload : JsVal) :
  served w 0 payload ->
  exists w1,
    listOrders b t s e page w = Some (Ok payload, w1)
    /\ orders_replies w1 = orders_replies w
    /\ orders_calls w1 = S (orders_calls w)
    /\ pages_requested w1 = (pages_requested w ++ [JNum (page_number page)])%list.
Proof.
  intros (status & text & Hst & Hrep). rewrite Nat.add_0_r in Hrep.
  unfold listOrders, try_catch, swFetch, bind, fetch. rewrite Hrep.
  replace ((200 <=? status) && (status <=? 299)) with true
    by (symmetry; apply andb_true_iff; split; apply Z.leb_le; lia).
  eexists. split; [reflexivity|]. repeat split.
Qed.

Lemma served_later (w w' : World) (i : nat) (payload : JsVal) :
  orders_replies w' = orders_replies w -> orders_calls w' = S (orders_calls w) ->
  served w (S i) payload -> served w' i payload.
Proof.
  intros Hr Hc (status & text & Hst & Hrep). exists status, text. split; [exact Hst|].
  rewrite Hr, Hc. rewrite <- Hrep. f_equal. lia.
Qed.

(** The loop on a world that serves the pages [ps], each of 500 rows or
    more, and then [last], of fewer than 500: it asks for every page in
    turn, unless the rows of one of them raise an error. *)
Lemma paging_run (b t s e : string) (ps : list JsVal) (last : JsVal) :
  forall (budget page : nat) (a : Acc) (w : World),
    (forall i p, nth_error (ps ++ [last])%list i = Some p -> served w i p) ->
    Forall (fun p => (500 <= rows_count p)%nat) ps ->
    (rows_count last < 500)%nat ->
    (List.length ps < budget)%nat ->
    match paging env budget b t s e page a w with
    | None => False
    | Some (Ok _, w') =>
        orders_calls w' = (orders_calls w + List.length ps + 1)%nat
        /\ pages_requested w' = (pages_requested w ++ page_numbers page (List.length ps + 1))%list
    | Some (Throw err, w') =>
        exists (k : nat) (p : JsVal) (rows : list JsVal) (a1 : Acc) (w1 : World),
          nth_error (ps ++ [last])%list k = Some p
          /\ rows_of p = JArr rows
          /\ rows_loop env b t rows a1 w1 = Some (Throw err, w')
          /\ orders_calls w' = (orders_calls w + k + 1)%nat
          /\ pages_requested w' = (pages_requested w ++ page_numbers page (k + 1))%list
    end.
Proof.
  induction ps as [| p ps IH]; intros budget page a w Hserved Hfull Hshort Hbudget.
  - destruct budget as [| budget]; [cbn in Hbudget; lia|].
    cbn [paging]. unfold bind at 1.
    destruct (listOrders_served b t s e page w last) as (w1 & -> & Hr & Hc & Hp).
    { apply Hserved. reflexivity. }
    unfold rows_count in Hshort.
    destruct (rows_of last) as [| | | | | [| row more_rows] |] eqn:Erows;
      try (cbn; split; [lia | exact Hp]).
    unfold bind at 1.
    destruct (rows_loop_total env b t (row :: more_rows) a w1) as ([a' | err] & w2 & Hloop).
    + rewrite Hloop.
      pose proof (rows_loop_keeps_details env _ _ _ _ _ _ _ Hloop) as (_ & Hc2 & Hp2).
      replace (500 <=? List.length (row :: more_rows))%nat with false
        by (symmetry; apply Nat.leb_gt; exact Hshort).
      cbn. split; [lia | congruence].
    + rewrite Hloop.
      pose proof (rows_loop_keeps_details env _ _ _ _ _ _ _ Hloop) as (_ & Hc2 & Hp2).
      exists 0%nat, last, (row :: more_rows), a, w1.
      split; [reflexivity|]. split; [exact Erows|]. split; [exact Hloop|].
      split; [lia | cbn; congruence].
  - destruct budget as [| budget]; [cbn in Hbudget; lia|].
    cbn [paging]. unfold bind at 1.
    destruct (listOrders_served b t s e page w p) as (w1 & -> & Hr & Hc & Hp).
    { apply Hserved. reflexivity. }
    inversion Hfull as [| ? ? Hp500 Hfull']; subst.
    unfold rows_count in Hp500.
    destruct (rows_of p) as [| | | | | [| row more_rows] |] eqn:Erows;
      try (cbn in Hp500; lia).
    unfold bind at 1.
    destruct (rows_loop_total env b t (row :: more_rows) a w1) as ([a' | err] & w2 & Hloop).
    + rewrite Hloop.
      pose proof (rows_loop_keeps_details env _ _ _ _ _ _ _ Hloop) as ((Hr2 & _) & Hc2 & Hp2).
      replace (500 <=? List.length (row :: more_rows))%nat with true
        by (symmetry; apply Nat.leb_le; exact Hp500).
      specialize (IH budget (S page) a' w2).
      assert (Hrest : match paging env budget b t s e (S page) a' w2 with
                      | None => False
                      | Some (Ok _, w') =>
                          orders_calls w' = (orders_calls w2 + List.length ps + 1)%nat
                          /\ pages_requested w'
                             = (pages_requested w2
                                ++ page_numbers (S page) (List.length ps + 1))%list
                      | Some (Throw err, w') =>
                          exists (k : nat) (q : JsVal) (rows : list JsVal) (a1 : Acc)
                                 (w1 : World),
                            nth_error (ps ++ [last])%list k = Some q
                            /\ rows_of q = JArr rows
                            /\ rows_loop env b t rows a1 w1 = Some (Throw err, w')
                            /\ orders_calls w' = (orders_calls w2 + k + 1)%nat
                            /\ pages_requested w'
                               = (pages_requested w2 ++ page_numbers (S page) (k + 1))%list
                      end).
      { apply IH; auto.
        - intros i q Hq. apply (served_later w); [congruence | congruence |].
          apply Hserved. exact Hq.
        - cbn in Hbudget. lia. }
      destruct (paging env budget b t s e (S page) a' w2) as [[[a'' | err] w3] |];
        [| | exact Hrest].
      * destruct Hrest as [Hc3 Hp3].
        split; [cbn [List.length]; lia|].
        rewrite Hp3, Hp2, Hp. rewrite <- app_assoc. reflexivity.
      * destruct Hrest as (k & q & rows & a1 & w1' & Hq & Hrows & Hthrow & Hc3 & Hp3).
        exists (S k), q, rows, a1, w1'.
        split; [exact Hq|]. split; [exact Hrows|]. split; [exact Hthrow|].
        split; [lia|].
        rewrite Hp3, Hp2, Hp. rewrite <- app_assoc. reflexivity.
    + rewrite Hloop.
      pose proof (rows_loop_keeps_details env _ _ _ _ _ _ _ Hloop) as (_ & Hc2 & Hp2).
      exists 0%nat, p, (row :: more_rows), a, w1.
      split; [reflexivity|]. split; [exact Erows|]. split; [exact Hloop|].
      split; [lia | cbn; congruence].
Qed.

(** *** Pages whose rows bring their lines along *)

Lemma row_step_carrying (b t : string) (a : Acc) (row : JsVal) (w : World) :
  carries_lines row ->
  exists a', row_step env b t a row w = Some (Ok a', w) /\ a_orders a' = S (a_orders a).
Proof.
  unfold carries_lines, row_step. intros H.
  destruct (orderLines row) as [| | | | | [| ln lines] |] eqn:E; try contradiction.
  cbn [get String.eqb Ascii.eqb Bool.eqb]. cbn [truthy].
  change (num_truthy (num_of_Z (Z.of_nat (List.length (ln :: lines))))) with
    (negb (Qeq_bool (inject_Z (Z.of_nat (List.length (ln :: lines)))) 0)).
  replace (Qeq_bool (inject_Z (Z.of_nat (List.length (ln :: lines)))) 0) with false.
  2:{ symmetry. apply not_true_is_false. intros Hq. apply Qeq_bool_iff in Hq.
      unfold Qeq in Hq. cbn [Qnum Qden inject_Z List.length] in Hq. lia. }
  cbn [negb]. unfold bind, ret, lift. rewrite E. cbn [iterate].
  eexists. split; [reflexivity|].
  cbn [a_orders].
  generalize (S (a_orders a)) (a_food a) (a_voids a) (a_promos a). intros n f v pr.
  assert (Hfold : forall ls acc, a_orders (fold_left (line_step env) ls acc) = a_orders acc).
  { induction ls as [| l ls IH]; intros acc; cbn [fold_left]; [reflexivity|].
    rewrite IH. unfold line_step. destruct (isVoided l); reflexivity. }
  apply Hfold.
Qed.

Lemma rows_loop_carrying (b t : string) (rows : list JsVal) :
  forall (a : Acc) (w : World),
    Forall carries_lines rows ->
    exists a', rows_loop env b t rows a w = Some (Ok a', w)
               /\ a_orders a' = (a_orders a + List.length rows)%nat.
Proof.
  induction rows as [| row rows IH]; intros a w H; cbn [rows_loop].
  - exists a. split; [reflexivity | cbn; lia].
  - inversion H as [| ? ? Hrow Hrows]; subst.
    destruct (row_step_carrying b t a row w Hrow) as (a1 & E1 & Ho1).
    destruct (IH a1 w Hrows) as (a2 & E2 & Ho2).
    exists a2. unfold bind. rewrite E1. split; [exact E2 | cbn [List.length]; lia].
Qed.

(** While every page has 500 rows or more, the loop asks for the next
    page: no budget is enough. *)
Lemma paging_goes_on (b t s e : string) (budget : nat) :
  forall (page : nat) (a : Acc) (w : World),
    (forall i, exists p, served w i p /\ (500 <= rows_count p)%nat /\ page_carries_lines p) ->
    paging env budget b t s e page a w = None.
Proof.
  induction budget as [| budget IH]; intros page a w H; cbn [paging]; [reflexivity|].
  destruct (H 0%nat) as (p & Hp & Hfull & Hlines).
  unfold bind at 1.
  destruct (listOrders_served b t s e page w p Hp) as (w1 & -> & Hr & Hc & _).
  unfold rows_count in Hfull. unfold page_carries_lines in Hlines.
  destruct (rows_of p) as [| | | | | [| row more_rows] |]; try (cbn in Hfull; lia).
  unfold bind at 1.
  destruct (rows_loop_carrying b t (row :: more_rows) a w1 Hlines) as (a' & -> & _).
  replace (500 <=? List.length (row :: more_rows))%nat with true
    by (symmetry; apply Nat.leb_le; exact Hfull).
  apply IH. intros i. destruct (H (S i)) as (q & Hq & Hqfull & Hqlines).
  exists q. split; [| split; assumption].
  apply (served_later w); assumption.
Qed.

(** When the rows bring their lines along, the loop returns, having
    counted every row of every page. *)
Lemma paging_returns (b t s e : string) (ps : list JsVal) (last : JsVal) :
  forall (budget page : nat) (a : Acc) (w : World),
    (forall i p, nth_error (ps ++ [last])%list i = Some p -> served w i p) ->
    Forall (fun p => (500 <= rows_count p)%nat) ps ->
    (rows_count last < 500)%nat ->
    Forall page_carries_lines (ps ++ [last])%list ->
    (List.length ps < budget)%nat ->
    exists a' w',
      paging env budget b t s e page a w = Some (Ok a', w')
      /\ a_orders a' = (a_orders a + list_sum (map rows_count (ps ++ [last])%list))%nat.
Proof.
  induction ps as [| p ps IH]; intros budget page a w Hserved Hfull Hshort Hlines Hbudget.
  - destruct budget as [| budget]; [cbn in Hbudget; lia|].
    cbn [paging]. unfold bind at 1.
    destruct (listOrders_served b t s e page w last) as (w1 & -> & _).
    { apply Hserved. reflexivity. }
    inversion Hlines as [| ? ? Hlast _]; subst.
    unfold page_carries_lines in Hlast. unfold rows_count in Hshort.
    cbn [app map list_sum]. unfold rows_count.
    destruct (rows_of last) as [| | | | | [| row more_rows] |];
      try (exists a, w1; split; [reflexivity | unfold list_sum; cbn [fold_right List.length]; lia]).
    unfold bind at 1.
    destruct (rows_loop_carrying b t (row :: more_rows) a w1 Hlast) as (a' & -> & Ha').
    replace (500 <=? List.length (row :: more_rows))%nat with false
      by (symmetry; apply Nat.leb_gt; exact Hshort).
    exists a', w1. split; [reflexivity | unfold list_sum; cbn [fold_right]; lia].
  - destruct budget as [| budget]; [cbn in Hbudget; lia|].
    cbn [paging]. unfold bind at 1.
    destruct (listOrders_served b t s e page w p) as (w1 & -> & Hr & Hc & _).
    { apply Hserved. reflexivity. }
    inversion Hfull as [| ? ? Hp500 Hfull']; subst.
    inversion Hlines as [| ? ? Hp Hlines']; subst.
    unfold page_carries_lines in Hp.
    cbn [app map list_sum]. unfold rows_count at 1. unfold rows_count in Hp500.
    destruct (rows_of p) as [| | | | | [| row more_rows] |]; try (cbn in Hp500; lia).
    unfold bind at 1.
    destruct (rows_loop_carrying b t (row :: more_rows) a w1 Hp) as (a1 & -> & Ha1).
    replace (500 <=? List.length (row :: more_rows))%nat with true
      by (symmetry; apply Nat.leb_le; exact Hp500).
    destruct (IH budget (S page) a1 w1) as (a' & w' & E & Ha'); auto.
    { intros i q Hq. apply (served_later w); [exact Hr | exact Hc |].
      apply Hserved. exact Hq. }
    { cbn in Hbudget. lia. }
    exists a', w'. split; [exact E | unfold list_sum in *; cbn [fold_right] in *; lia].
Qed.

(** C4.  On an upstream that answers the calls to [GetOrders] with pages
    of 500 rows or more and then with a page of fewer than 500 rows
    (possibly none), the aggregator ends.  When it returns totals it has
    requested each of these pages in turn, Page = 1, 2, ..., the short one
    last, and no page after it.  It fails only when the week window cannot
    be resolved, and then nothing is requested, or when the rows of one of
    the pages raise an error (an order without lines that cannot be
    fetched, lines that cannot be iterated): then that page and the pages
    before it have been requested in turn, and no page after it.  When the
    window resolves and every row brings its lines along, it returns
    totals. *)
Theorem paging_stops_after_short_page
    (budget : nat) (b t weekISO : string) (w : World) (ps : list JsVal) (last : JsVal) :
  (forall i p, nth_error (ps ++ [last])%list i = Some p -> served w i p) ->
  Forall (fun p => (500 <= rows_count p)%nat) ps ->
  (rows_count last < 500)%nat ->
  (List.length ps < budget)%nat ->
  match collectForWeek env budget b t weekISO w with
  | None => False
  | Some (Ok tot, w') =>
      orders_calls w' = (orders_calls w + List.length ps + 1)%nat
      /\ pages_requested w' = (pages_requested w ++ page_numbers 1 (List.length ps + 1))%list
  | Some (Throw err, w') =>
      (rangeForWeekISO weekISO (TZ_OFFSET_MIN env) = Throw err /\ w' = w)
      \/ exists (k : nat) (p : JsVal) (rows : list JsVal) (a1 : Acc) (w1 : World),
           nth_error (ps ++ [last])%list k = Some p
           /\ rows_of p = JArr rows
           /\ ~ Forall carries_lines rows
           /\ rows_loop env b t rows a1 w1 = Some (Throw err, w')
           /\ orders_calls w' = (orders_calls w + k + 1)%nat
           /\ pages_requested w' = (pages_requested w ++ page_numbers 1 (k + 1))%list
  end
  /\ ((exists window, rangeForWeekISO weekISO (TZ_OFFSET_MIN env) = Ok window) ->
      Forall page_carries_lines (ps ++ [last])%list ->
      exists tot w', collectForWeek env budget b t weekISO w = Some (Ok tot, w')).
Proof.
  intros Hserved Hfull Hshort Hbudget.
  unfold collectForWeek. unfold bind at 1 3. unfold lift.
  destruct (rangeForWeekISO weekISO (TZ_OFFSET_MIN env)) as [window | err].
  - pose proof (paging_run b t (start window) (end_ window) ps last budget 1 acc0 w
                  Hserved Hfull Hshort Hbudget) as H.
    split.
    + unfold bind.
      destruct (paging env budget b t (start window) (end_ window) 1 acc0 w)
        as [[[a | err] w'] |]; [| | exact H].
      * cbn. exact H.
      * right. destruct H as (k & p & rows & a1 & w1 & Hp & Hrows & Hthrow & Hc & Hpages).
        exists k, p, rows, a1, w1.
        split; [exact Hp|]. split; [exact Hrows|]. split; [| auto].
        intros Hlines.
        destruct (rows_loop_carrying b t rows a1 w1 Hlines) as (a' & E & _).
        rewrite E in Hthrow. discriminate Hthrow.
    + intros _ Hlines.
      destruct (paging_returns b t (start window) (end_ window) ps last budget 1 acc0 w
                  Hserved Hfull Hshort Hlines Hbudget) as (a' & w' & E & _).
      unfold bind. rewrite E. eexists _, _. reflexivity.
  - split.
    + left. split; reflexivity.
    + intros [window Hwindow] _. discriminate Hwindow.
Qed.

End Paging.

(** ** One location after the other *)

Section Locations.
Context {RT : Runtime}.
Variable env : Env.

Lemma location_step_never_throws (budget : nat) (weekISO : string) (loc : string * Cfg)
    (w w' : World) (r : Result unit) :
  location_step env budget weekISO loc w = Some (r, w') -> r = Ok tt.
Proof.
  destruct loc as [locKey cfg]. unfold location_step.
  assert (Hlog : forall line w0, log line w0 = Some (r, w') -> r = Ok tt).
  { intros line w0 H. inversion H. reflexivity. }
  destruct (base cfg) as [b |]; [| apply Hlog].
  destruct (token cfg) as [t |]; [| apply Hlog].
  destruct (nonempty b && nonempty t); [| apply Hlog].
  unfold try_catch.
  match goal with
  | |- match ?m w with _ => _ end = _ -> _ =>
      destruct (m w) as [[[[] | e] w1] |]; [| apply Hlog |]
  end.
  - intros H. inversion H. reflexivity.
  - discriminate.
Qed.

(** C8.  When the aggregation of a location raises an error that it does
    not recover from, as it does when a fetch fails, no document is written
    and the store is not even called for that location, the failure is
    reported, and the loop goes on with the remaining locations; the
    handling of a location never raises an error itself. *)
Theorem failed_location_is_contained
    (budget : nat) (weekISO locKey b t : string) (rest : list (string * Cfg))
    (w w1 : World) (e : string) :
  nonempty b = true -> nonempty t = true ->
  collectForWeek env budget b t weekISO w = Some (Throw e, w1) ->
  (exists w2,
      location_step env budget weekISO (locKey, {| base := Some b; token := Some t |}) w
      = Some (Ok tt, w2)
      /\ written w2 = written w /\ store_calls w2 = store_calls w
      /\ console w2 = Failed locKey e :: console w
      /\ locations_loop env budget weekISO
           ((locKey, {| base := Some b; token := Some t |}) :: rest) w
         = locations_loop env budget weekISO rest w2)
  /\ (forall loc w0 r w0', location_step env budget weekISO loc w0 = Some (r, w0') -> r = Ok tt).
Proof.
  intros Hb Ht Hfail. split; [| intros loc w0 r w0'; apply location_step_never_throws].
  pose proof (collectForWeek_keeps_http env _ _ _ _ _ _ _ Hfail)
    as (_ & _ & _ & Hcalls & Hwritten & _ & _ & Hconsole).
  assert (Hstep : location_step env budget weekISO
                    (locKey, {| base := Some b; token := Some t |}) w
                  = log (Failed locKey e) w1).
  { unfold location_step. cbn [base token]. rewrite Hb, Ht. cbn [andb].
    unfold try_catch, bind. rewrite Hfail. reflexivity. }
  eexists. split; [rewrite Hstep; reflexivity|].
  cbn [written store_calls console]. repeat split; try congruence.
  cbn [locations_loop]. unfold bind at 1. rewrite Hstep. reflexivity.
Qed.

End Locations.

(** ** Examples *)

(** The scenario of one page with two orders: a food line of 10 and a line
    with a discount of 2, then a voided order of 5 with a header discount
    of 1. *)
Example two_orders_scenario :
  let order_a :=
    JObj [("OrderID", jnum 1);
          ("Lines", JArr [JObj [("NetTotal", jnum 10); ("CategoryName", JStr "Food")];
                          JObj [("Discount", jnum 2)]])] in
  let order_b :=
    JObj [("OrderID", jnum 2); ("DiscountTotal", jnum 1);
          ("Lines", JArr [JObj [("NetTotal", jnum 5); ("Status", JStr "VOIDED")]])] in
  let w := world_of [Response 200 "" (Some (JArr [order_a; order_b]))] [] in
  option_map fst (@collectForWeek example_runtime example_env 1 "https://pos" "tok" "2025-10-06" w)
  = Some (Ok {| t_start := "2025-10-06T04:00:00.000Z"; t_end := "2025-10-13T04:00:00.000Z";
                orders := 2; food := num_of_Z 10; voids := num_of_Z 5;
                promos := num_of_Z 3 |}).
Proof. vm_compute. reflexivity. Qed.

Example configuration_of_the_examples :
  TZ_OFFSET_MIN example_env = Some (-240)
  /\ FOOD_HINTS (FOOD_CATEGORY_HINTS example_env) = ["food"; "kitchen"]
  /\ @looksLikeFood example_runtime (FOOD_HINTS None) food_line = true
  /\ @lineCategoryName example_runtime food_line = "kitchen - hot line".
Proof. repeat split. Qed.

Lemma totals_never_negative_witness :
  (exists tot w',
      @collectForWeek example_runtime example_env 1 "https://pos" "tok" "2025-10-06"
        hostile_world = Some (Ok tot, w')
      /\ num_ge0 (food tot) = true /\ num_ge0 (voids tot) = true
      /\ num_ge0 (promos tot) = true)
  /\ acc_le acc0 (@line_step example_runtime example_env acc0 food_line).
Proof.
  split.
  - destruct (@collectForWeek example_runtime example_env 1 "https://pos" "tok" "2025-10-06"
                hostile_world) as [[[tot | e] w'] |] eqn:E.
    + exists tot, w'. split; [reflexivity|].
      apply (proj1 (@totals_never_negative example_runtime example_env) _ _ _ _ _ _ _ E).
    + vm_compute in E. discriminate E.
    + vm_compute in E. discriminate E.
  - apply (proj2 (@totals_never_negative example_runtime example_env) acc0 food_line).
    repeat split.
Defined.

Lemma paging_stops_after_short_page_witness :
  exists tot w',
    @collectForWeek example_runtime example_env 2 "https://pos" "tok" "2025-10-06"
      two_pages_world = Some (Ok tot, w')
    /\ orders_calls w' = 2%nat
    /\ pages_requested w' = [jnum 1; jnum 2].
Proof.
  destruct (@paging_stops_after_short_page example_runtime example_env 2 "https://pos" "tok"
              "2025-10-06" two_pages_world [full_page] short_page) as [Hrun Hends].
  - intros [| [| i]] p H; cbn in H; inversion H; subst.
    + exists 200, "". split; [lia | reflexivity].
    + exists 200, "". split; [lia | reflexivity].
    + destruct i; discriminate.
  - constructor; [apply Nat.leb_le; vm_compute; reflexivity | constructor].
  - apply Nat.ltb_lt. vm_compute. reflexivity.
  - cbn. lia.
  - destruct Hends as (tot & w' & E).
    + eexists. vm_compute. reflexivity.
    + constructor; [| constructor; [| constructor]].
      * change (Forall carries_lines (repeat items_order 500)).
        apply Forall_forall. intros x Hx. apply repeat_spec in Hx. subst x. exact I.
      * repeat constructor.
    + rewrite E in Hrun. exists tot, w'. split; [exact E | exact Hrun].
Defined.

Lemma failed_location_is_contained_witness :
  exists w2,
    @location_step example_runtime example_env 1 "2025-10-06"
      ("beacon", {| base := Some "https://pos"; token := Some "tok" |}) silent_world
    = Some (Ok tt, w2)
    /\ written w2 = [] /\ store_calls w2 = 0%nat
    /\ console w2 = [Failed "beacon" "connection refused"].
Proof.
  destruct (@collectForWeek example_runtime example_env 1 "https://pos" "tok" "2025-10-06"
              silent_world) as [[[tot | e] w1] |] eqn:E;
    [vm_compute in E; discriminate E | | vm_compute in E; discriminate E].
  assert (He : e = "connection refused").
  { vm_compute in E. inversion E. reflexivity. }
  subst e.
  destruct (proj1 (@failed_location_is_contained example_runtime example_env 1 "2025-10-06"
                     "beacon" "https://pos" "tok" [] silent_world w1 "connection refused"
                     eq_refl eq_refl E))
    as (w2 & Hstep & Hw & Hc & Hlog & _).
  exists w2. repeat split; assumption.
Defined.

(** ** The week window *)

Lemma year_of_day_spec (d : Z) :
  DayFromYear (year_of_day d) <= d < DayFromYear (year_of_day d + 1).
Proof.
  unfold year_of_day.
  set (y0 := 1970 + d * 400 / 146097).
  assert (H0 : DayFromYear (y0 - 1) <= d < DayFromYear (y0 + 2)).
  { subst y0. unfold DayFromYear. Z.div_mod_to_equations. lia. }
  destruct (DayFromYear (y0 + 1) <=? d) eqn:E1.
  - apply Z.leb_le in E1. replace (y0 + 1 + 1) with (y0 + 2) by lia. lia.
  - apply Z.leb_gt in E1.
    destruct (DayFromYear y0 <=? d) eqn:E2.
    + apply Z.leb_le in E2. lia.
    + apply Z.leb_gt in E2. replace (y0 - 1 + 1) with y0 by lia. lia.
Qed.

Lemma days_in_year (y : Z) :
  DayFromYear (y + 1) - DayFromYear y = 365 + (if is_leap y then 1 else 0).
Proof.
  unfold DayFromYear, is_leap.
  destruct (y mod 4 =? 0) eqn:E4; destruct (y mod 100 =? 0) eqn:E100;
    destruct (y mod 400 =? 0) eqn:E400; cbn [andb orb negb];
    rewrite ?Z.eqb_eq, ?Z.eqb_neq in *; Z.div_mod_to_equations; lia.
Qed.

Lemma DayWithinYear_range (t : Z) : 0 <= DayWithinYear t < 365 + InLeapYear t.
Proof.
  unfold DayWithinYear, InLeapYear, YearFromTime.
  pose proof (year_of_day_spec (Day t)) as H.
  pose proof (days_in_year (year_of_day (Day t))) as H'.
  lia.
Qed.

Lemma InLeapYear_bit (t : Z) : InLeapYear t = 0 \/ InLeapYear t = 1.
Proof. unfold InLeapYear. destruct (is_leap _); auto. Qed.

Lemma month_of_yday_cases (d L : Z) :
  0 <= d < 365 + L ->
  0 <= month_of_yday d L <= 11
  /\ 1 <= d - month_start (month_of_yday d L) L + 1
     <= match month_of_yday d L with
        | 1 => 28 + L
        | 3 | 5 | 8 | 10 => 30
        | _ => 31
        end.
Proof.
  intros Hd. unfold month_of_yday.
  repeat match goal with
         | |- 0 <= (if ?a <? ?b then _ else _) <= 11 /\ _ =>
             destruct (Z.ltb_spec a b); [unfold month_start; cbv beta iota; lia|]
         end.
  unfold month_start; cbv beta iota; lia.
Qed.

Lemma MonthFromTime_range (t : Z) : 0 <= MonthFromTime t <= 11.
Proof.
  unfold MonthFromTime.
  apply (month_of_yday_cases (DayWithinYear t) (InLeapYear t)).
  apply DayWithinYear_range.
Qed.

Lemma DateFromTime_range (t : Z) :
  1 <= DateFromTime t <= days_in_month (YearFromTime t) (MonthFromTime t).
Proof.
  pose proof (month_of_yday_cases (DayWithinYear t) (InLeapYear t)
                (DayWithinYear_range t)) as [Hm Hd].
  unfold DateFromTime, MonthFromTime, days_in_month.
  fold (InLeapYear t).
  exact Hd.
Qed.

Lemma MakeDay_of_time (t k : Z) :
  MakeDay (YearFromTime t) (MonthFromTime t) (DateFromTime t + k) = Day t + k.
Proof.
  pose proof (MonthFromTime_range t) as Hm.
  unfold MakeDay. rewrite (Z.div_small (MonthFromTime t) 12) by lia.
  rewrite (Z.mod_small (MonthFromTime t) 12) by lia.
  rewrite Z.add_0_r. fold (InLeapYear t).
  unfold DateFromTime, DayWithinYear. lia.
Qed.

Lemma MakeTime_of_time (t : Z) :
  MakeTime (HourFromTime t) (MinFromTime t) (SecFromTime t) (msFromTime t) = TimeWithinDay t.
Proof.
  unfold MakeTime, HourFromTime, MinFromTime, SecFromTime, msFromTime, TimeWithinDay,
    msPerHour, msPerMinute, msPerSecond, msPerDay.
  Z.div_mod_to_equations. lia.
Qed.

Lemma MakeDate_of_time (t : Z) : MakeDate (Day t) (TimeWithinDay t) = t.
Proof.
  unfold MakeDate, Day, TimeWithinDay, msPerDay. Z.div_mod_to_equations. lia.
Qed.

Lemma digit_of_char (d : Z) : 0 <= d <= 9 -> digit_of (digit_char d) = Some d.
Proof.
  intros H.
  assert (C : d = 0 \/ d = 1 \/ d = 2 \/ d = 3 \/ d = 4 \/ d = 5 \/ d = 6 \/ d = 7
              \/ d = 8 \/ d = 9) by lia.
  repeat (destruct C as [-> | C]; [reflexivity|]). subst d. reflexivity.
Qed.

Lemma append_assoc (a b c : string) : (a ++ b) ++ c = a ++ (b ++ c).
Proof. induction a as [| x a IH]; cbn; [reflexivity | rewrite IH; reflexivity]. Qed.

Lemma read_digits_cons (n : nat) (acc : Z) (c : ascii) (rest : string) :
  read_digits (S n) acc (String c rest)
  = match digit_of c with
    | Some d => read_digits n (acc * 10 + d) rest
    | None => None
    end.
Proof. reflexivity. Qed.

(** Reading [n + 1] digits is reading [n] digits and one more. *)
Lemma read_digits_last (n : nat) :
  forall (acc : Z) (s : string),
    read_digits (S n) acc s
    = match read_digits n acc s with
      | Some (a, String c rest) =>
          match digit_of c with
          | Some d => Some (a * 10 + d, rest)
          | None => None
          end
      | _ => None
      end.
Proof.
  induction n as [| n IH]; intros acc s.
  - destruct s as [| c rest]; [reflexivity|].
    rewrite read_digits_cons. cbn [read_digits]. destruct (digit_of c); reflexivity.
  - destruct s as [| c rest]; [reflexivity|].
    rewrite (read_digits_cons (S n)), (read_digits_cons n).
    destruct (digit_of c) as [d |]; [| reflexivity].
    apply IH.
Qed.

Lemma read_digits_pad (n : nat) :
  forall (k acc : Z) (rest : string),
    0 <= k < 10 ^ Z.of_nat n ->
    read_digits n acc (pad n k ++ rest) = Some (acc * 10 ^ Z.of_nat n + k, rest).
Proof.
  induction n as [| n IH]; intros k acc rest Hk.
  - cbn in *. f_equal. f_equal. lia.
  - rewrite read_digits_last. cbn [pad]. rewrite append_assoc.
    rewrite Nat2Z.inj_succ, Z.pow_succ_r in * by lia.
    rewrite IH by (split; [apply Z.div_pos; lia | apply Z.div_lt_upper_bound; lia]).
    cbn [append]. rewrite digit_of_char by (pose proof (Z.mod_pos_bound k 10); lia).
    f_equal. f_equal. pose proof (Z.div_mod k 10). lia.
Qed.

Lemma read_pad2 (k : Z) (rest : string) :
  0 <= k < 100 -> read_digits 2 0 (pad 2 k ++ rest) = Some (k, rest).
Proof. intros H. rewrite read_digits_pad by (cbn; lia). f_equal. Qed.

Lemma read_pad3 (k : Z) (rest : string) :
  0 <= k < 1000 -> read_digits 3 0 (pad 3 k ++ rest) = Some (k, rest).
Proof. intros H. rewrite read_digits_pad by (cbn; lia). f_equal. Qed.

Lemma read_pad4 (k : Z) (rest : string) :
  0 <= k < 10000 -> read_digits 4 0 (pad 4 k ++ rest) = Some (k, rest).
Proof. intros H. rewrite read_digits_pad by (cbn; lia). f_equal. Qed.

Lemma expect_same (c : ascii) (rest : string) : expect c (String c rest) = Some rest.
Proof. unfold expect. rewrite Ascii.eqb_refl. reflexivity. Qed.

Lemma time_fields_range (t : Z) :
  0 <= HourFromTime t <= 23 /\ 0 <= MinFromTime t <= 59 /\ 0 <= SecFromTime t <= 59
  /\ 0 <= msFromTime t <= 999.
Proof.
  unfold HourFromTime, MinFromTime, SecFromTime, msFromTime, msPerSecond.
  pose proof (Z.mod_pos_bound (t / msPerHour) 24).
  pose proof (Z.mod_pos_bound (t / msPerMinute) 60).
  pose proof (Z.mod_pos_bound (t / 1000) 60).
  pose proof (Z.mod_pos_bound t 1000).
  lia.
Qed.

Lemma days_in_month_le_31 (y m : Z) : days_in_month y m <= 31.
Proof.
  unfold days_in_month.
  destruct m as [| p |]; try lia.
  destruct (is_leap y);
    repeat (destruct p as [p | p |]; try lia).
Qed.

Lemma read_pad6 (k : Z) (rest : string) :
  0 <= k < 1000000 -> read_digits 6 0 (pad 6 k ++ rest) = Some (k, rest).
Proof. intros H. rewrite read_digits_pad by (cbn; lia). f_equal. Qed.

(** A year of four digits does not start with a sign. *)
Lemma read_year_pad4 (y : Z) (rest : string) :
  0 <= y <= 9999 -> read_year (pad 4 y ++ rest) = Some (y, rest).
Proof.
  intros Hy. rewrite <- (read_pad4 y rest) by lia.
  cbn [pad append].
  set (d := y / 10 / 10 / 10 mod 10).
  assert (C : d = 0 \/ d = 1 \/ d = 2 \/ d = 3 \/ d = 4 \/ d = 5 \/ d = 6 \/ d = 7
              \/ d = 8 \/ d = 9) by (pose proof (Z.mod_pos_bound (y / 10 / 10 / 10) 10); lia).
  clearbody d.
  repeat (destruct C as [-> | C]; [reflexivity|]). subst d. reflexivity.
Qed.

Lemma read_year_iso (y : Z) (rest : string) :
  -1000000 < y < 1000000 -> read_year (iso_year y ++ rest) = Some (y, rest).
Proof.
  intros Hy. unfold iso_year.
  destruct (Z.leb_spec 0 y) as [H0 | H0]; cbn [andb].
  - destruct (Z.leb_spec y 9999) as [H1 | H1].
    + apply read_year_pad4. lia.
    + replace (y <? 0) with false by (symmetry; apply Z.ltb_ge; lia).
      cbn [append read_year]. rewrite read_pad6 by lia. f_equal. f_equal. lia.
  - replace (y <? 0) with true by (symmetry; apply Z.ltb_lt; lia).
    cbn [append read_year]. rewrite read_pad6 by lia.
    replace (Z.abs y =? 0) with false by (symmetry; apply Z.eqb_neq; lia).
    f_equal. f_equal. lia.
Qed.

(** The years of the time values that a [Date] can hold. *)
Lemma valid_time_year (t : Z) :
  Z.abs t <= 8640000000000000 -> -1000000 < YearFromTime t < 1000000.
Proof.
  intros Ht.
  pose proof (year_of_day_spec (Day t)) as Hspec. fold (YearFromTime t) in Hspec.
  assert (Hday : -100000000 <= Day t <= 100000000).
  { unfold Day, msPerDay. Z.div_mod_to_equations. lia. }
  unfold DayFromYear in Hspec. Z.div_mod_to_equations. lia.
Qed.

(** Reading what [toISOString] printed gives the time value back. *)
Lemma parse_iso_string (t : Z) :
  Z.abs t <= 8640000000000000 -> parse_iso (iso_string t) = Some t.
Proof.
  intros Ht.
  pose proof (valid_time_year t Ht) as Hy.
  pose proof (MonthFromTime_range t) as Hm.
  pose proof (DateFromTime_range t) as Hd.
  pose proof (days_in_month_le_31 (YearFromTime t) (MonthFromTime t)) as Hd31.
  pose proof (time_fields_range t) as (Hh & Hmi & Hs & Hms).
  unfold iso_string.
  unfold parse_iso.
  rewrite read_year_iso by lia. cbn [append]. rewrite expect_same.
  rewrite read_pad2 by lia. cbn [append]. rewrite expect_same.
  rewrite read_pad2 by lia. cbn [append]. rewrite expect_same.
  rewrite read_pad2 by lia. cbn [append]. rewrite expect_same.
  rewrite read_pad2 by lia. cbn [append]. rewrite expect_same.
  rewrite read_pad2 by lia. cbn [append].
  rewrite read_pad3 by lia.
  replace (MonthFromTime t + 1 - 1) with (MonthFromTime t) by lia.
  replace (_ && _) with true.
  - f_equal.
    replace (DateFromTime t) with (DateFromTime t + 0) at 1 by lia.
    rewrite MakeDay_of_time, MakeTime_of_time, Z.add_0_r. apply MakeDate_of_time.
  - symmetry. rewrite !andb_true_iff. rewrite !Z.leb_le.
    repeat split; try lia. 
Qed.

Lemma month_start_range (m L : Z) : 0 <= m <= 11 -> 0 <= L <= 1 -> 0 <= month_start m L <= 335.
Proof.
  intros Hm HL.
  assert (C : m = 0 \/ m = 1 \/ m = 2 \/ m = 3 \/ m = 4 \/ m = 5 \/ m = 6 \/ m = 7
              \/ m = 8 \/ m = 9 \/ m = 10 \/ m = 11) by lia.
  repeat (destruct C as [-> | C]; [cbn [month_start]; lia|]). subst m. cbn [month_start]. lia.
Qed.

Lemma TimeClip_valid (t : Z) : Z.abs t <= 8640000000000000 -> TimeClip t = Some t.
Proof. intros Ht. unfold TimeClip. apply Z.leb_le in Ht. rewrite Ht. reflexivity. Qed.

Section WeekWindow.
Context {RT : Runtime}.

Lemma new_Date_midnight (Y M D : Z) :
  0 <= Y <= 9999 -> 1 <= M <= 12 -> 1 <= D <= days_in_month Y (M - 1) ->
  new_Date (date_string Y M D ++ "T00:00:00Z") = Some (midnight_UTC Y M D).
Proof.
  intros HY HM HD.
  pose proof (days_in_month_le_31 Y (M - 1)) as Hd31.
  assert (Hparse : parse_iso (date_string Y M D ++ "T00:00:00Z") = Some (midnight_UTC Y M D)).
  { unfold date_string. rewrite !append_assoc. unfold parse_iso.
    rewrite read_year_pad4 by lia. cbn [append]. rewrite expect_same.
    rewrite read_pad2 by lia. cbn [append]. rewrite expect_same.
    rewrite read_pad2 by lia.
    change (expect "T" "T00:00:00Z") with (Some "00:00:00Z"). cbv beta iota.
    change (read_digits 2 0 "00:00:00Z") with (Some (0, ":00:00Z")). cbv beta iota.
    change (expect ":" ":00:00Z") with (Some "00:00Z"). cbv beta iota.
    change (read_digits 2 0 "00:00Z") with (Some (0, ":00Z")). cbv beta iota.
    change (expect ":" ":00Z") with (Some "00Z"). cbv beta iota.
    change (read_digits 2 0 "00Z") with (Some (0, "Z")). cbv beta iota.
    replace (_ && _) with true; [reflexivity|].
    symmetry. rewrite !andb_true_iff. rewrite !Z.leb_le. repeat split; lia. }
  unfold new_Date, Date_parse. rewrite Hparse.
  unfold TimeClip.
  replace (Z.abs (midnight_UTC Y M D) <=? 8640000000000000) with true; [reflexivity|].
  symmetry. apply Z.leb_le.
  unfold midnight_UTC, MakeDate, MakeDay, MakeTime, msPerDay.
  rewrite (Z.div_small (M - 1) 12), (Z.mod_small (M - 1) 12) by lia.
  pose proof (month_start_range (M - 1) (if is_leap (Y + 0) then 1 else 0)) as Hms.
  assert (0 <= (if is_leap (Y + 0) then 1 else 0) <= 1) by (destruct (is_leap _); lia).
  unfold DayFromYear. Z.div_mod_to_equations. lia.
Qed.

Lemma midnight_fields (Y M D : Z) :
  let t := midnight_UTC Y M D in
  Day t = MakeDay Y (M - 1) D /\ HourFromTime t = 0 /\ MinFromTime t = 0
  /\ SecFromTime t = 0 /\ msFromTime t = 0.
Proof.
  unfold midnight_UTC, MakeDate, MakeTime.
  generalize (MakeDay Y (M - 1) D). intros d. cbv zeta.
  unfold Day, HourFromTime, MinFromTime, SecFromTime, msFromTime,
    msPerDay, msPerHour, msPerMinute, msPerSecond.
  repeat split; Z.div_mod_to_equations; lia.
Qed.

Lemma rangeForWeekISO_shifted (Y M D tz : Z) :
  0 <= Y <= 9999 -> 1 <= M <= 12 -> 1 <= D <= days_in_month Y (M - 1) ->
  Z.abs (midnight_UTC Y M D - tz * msPerMinute) <= 8640000000000000 ->
  Z.abs (midnight_UTC Y M D - tz * msPerMinute + 7 * msPerDay) <= 8640000000000000 ->
  rangeForWeekISO (date_string Y M D) (Some tz)
  = Ok {| start := iso_string (midnight_UTC Y M D - tz * msPerMinute);
          end_ := iso_string (midnight_UTC Y M D - tz * msPerMinute + 7 * msPerDay) |}.
Proof.
  intros HY HM HD Hs He.
  set (s := midnight_UTC Y M D - tz * msPerMinute) in *.
  unfold rangeForWeekISO.
  rewrite (new_Date_midnight Y M D HY HM HD).
  destruct (midnight_fields Y M D) as (Hday & Hh & Hmi & Hsec & Hms).
  cbv zeta in Hday, Hh, Hmi, Hsec, Hms.
  cbn [getUTCMinutes option_map opt_sub setUTCMinutes].
  rewrite Hh, Hmi, Hsec, Hms.
  replace (MakeDate (Day (midnight_UTC Y M D)) (MakeTime 0 (0 - tz) 0 0)) with s.
  2:{ subst s. rewrite <- (MakeDate_of_time (midnight_UTC Y M D)) at 1.
      unfold MakeDate, MakeTime, TimeWithinDay, midnight_UTC, MakeDate, MakeTime,
        msPerDay, msPerHour, msPerMinute, msPerSecond.
      Z.div_mod_to_equations. lia. }
  rewrite (TimeClip_valid s Hs). cbn [toISOString].
  unfold new_Date, Date_parse. rewrite (parse_iso_string s Hs).
  rewrite (TimeClip_valid s Hs).
  cbn [getUTCDate option_map opt_add setUTCDate].
  rewrite MakeDay_of_time.
  replace (MakeDate (Day s + 7) (TimeWithinDay s)) with (s + 7 * msPerDay).
  2:{ rewrite <- (MakeDate_of_time s) at 1. unfold MakeDate. lia. }
  rewrite (TimeClip_valid _ He). reflexivity.
Qed.

(** C7.  For a date of the calendar and an offset in minutes, as long as
    the two instants are time values that a [Date] can hold,
    [rangeForWeekISO] returns as start the midnight in UTC of the date
    moved by minus the offset, and as end the start plus 7 days; for
    2025-10-06 and -240 these are 2025-10-06T04:00:00.000Z and
    2025-10-13T04:00:00.000Z. *)
Theorem week_window :
  (forall Y M D tz,
      0 <= Y <= 9999 -> 1 <= M <= 12 -> 1 <= D <= days_in_month Y (M - 1) ->
      Z.abs (midnight_UTC Y M D - tz * msPerMinute) <= 8640000000000000 ->
      Z.abs (midnight_UTC Y M D - tz * msPerMinute + 7 * msPerDay) <= 8640000000000000 ->
      rangeForWeekISO (date_string Y M D) (Some tz)
      = Ok {| start := iso_string (midnight_UTC Y M D - tz * msPerMinute);
              end_ := iso_string (midnight_UTC Y M D - tz * msPerMinute + 7 * msPerDay) |})
  /\ rangeForWeekISO "2025-10-06" (Some (-240))
     = Ok {| start := "2025-10-06T04:00:00.000Z"; end_ := "2025-10-13T04:00:00.000Z" |}.
Proof.
  split.
  - apply rangeForWeekISO_shifted.
  - vm_compute. reflexivity.
Qed.

End WeekWindow.

Example midnight_of_2025_10_06 :
  midnight_UTC 2025 10 6 = 1759708800000
  /\ iso_string (midnight_UTC 2025 10 6) = "2025-10-06T00:00:00.000Z"
  /\ date_string 2025 10 6 = "2025-10-06".
Proof. repeat split. Qed.

Lemma week_window_witness :
  @rangeForWeekISO example_runtime (date_string 2024 2 26) (Some (-300))
  = Ok {| start := "2024-02-26T05:00:00.000Z"; end_ := "2024-03-04T05:00:00.000Z" |}.
Proof.
  rewrite (proj1 (@week_window example_runtime) 2024 2 26 (-300));
    [vm_compute; reflexivity | lia | lia | vm_compute; split; discriminate
    | vm_compute; discriminate | vm_compute; discriminate].
Defined.

(** ** Rounding on binary64 *)


Example round2_binary64_examples :
  round2_binary64 (cents_binary64 1000) = cents_binary64 1000
  /\ round2_binary64 0x1.4028f5c28f5c3p+3%float = cents_binary64 1001
  /\ Math_round_binary64 2.5%float = 3%float
  /\ Math_round_binary64 (-2.5)%float = (-2)%float.
Proof. repeat split; vm_compute; reflexivity. Qed.


(** * Further properties of the script *)

(** ** The other extractors *)

Section MoreExtractors.
Context {RT : Runtime}.
Variable env : Env.

(** X1.  [lineDiscount] returns the first non-zero value among the coerced
    [Discount] and [DiscountAmount], and [orderHeaderDiscount] the first
    non-zero value among the coerced [DiscountTotal], [PromotionsTotal],
    [CheckDiscountTotal] and [TotalDiscount]; each returns zero when all
    its candidates are zero. *)
Theorem discounts_first_nonzero (v : JsVal) :
  lineDiscount v
  = first_such nonzero (map (fun k => num (get v k)) discount_fields) num_zero
  /\ orderHeaderDiscount v
     = first_such nonzero (map (fun k => num (get v k)) header_discount_fields) num_zero.
Proof.
  split.
  - unfold lineDiscount, first_such, discount_fields. cbn [map find].
    rewrite !nonzero_num.
    repeat match goal with
           | |- context [num_or (num ?x) _] =>
               let E := fresh "E" in
               destruct (num_truthy (num x)) eqn:E;
               [ rewrite (num_or_truthy _ _ E); reflexivity
               | rewrite (num_or_falsy _ _ E) ]
           end.
    reflexivity.
  - unfold orderHeaderDiscount, first_such, header_discount_fields. cbn [map find].
    rewrite !nonzero_num.
    repeat match goal with
           | |- context [num_or (num ?x) _] =>
               let E := fresh "E" in
               destruct (num_truthy (num x)) eqn:E;
               [ rewrite (num_or_truthy _ _ E); reflexivity
               | rewrite (num_or_falsy _ _ E) ]
           end.
    reflexivity.
Qed.

(** X2.  Whatever a field holds and whatever the engine makes of a string,
    the numeric extractors never return NaN, and a result of [num] that is
    falsy is the number 0. *)
Theorem extractors_never_nan (v : JsVal) :
  num v <> NaN /\ lineTotal v <> NaN /\ lineDiscount v <> NaN
  /\ orderHeaderDiscount v <> NaN
  /\ (num_truthy (num v) = true \/ num v = num_zero).
Proof.
  repeat split.
  - apply num_not_nan.
  - apply lineTotal_not_nan.
  - apply lineDiscount_not_nan.
  - apply orderHeaderDiscount_not_nan.
  - destruct (num_truthy (num v)) eqn:E; [left; reflexivity | right; apply num_falsy; exact E].
Qed.

(** X3.  On a value that is not an object (null, a number, a string, an
    array, as when the lines of an order are the characters of a string)
    every extractor returns its default, and as a line such a value adds
    nothing to the totals of food and voids and zero to promotions. *)
Theorem defaults_on_non_objects (v : JsVal) (a : Acc) :
  not_an_object v = true ->
  lineTotal v = num_zero /\ lineDiscount v = num_zero /\ orderHeaderDiscount v = num_zero
  /\ lineCategoryName v = "" /\ isVoided v = false /\ orderLines v = empty_array
  /\ line_step env a v
     = {| a_orders := a_orders a; a_food := a_food a; a_voids := a_voids a;
          a_promos := num_add (a_promos a) num_zero |}.
Proof.
  intros Hv.
  assert (Hfacts : lineTotal v = num_zero /\ lineDiscount v = num_zero
                   /\ orderHeaderDiscount v = num_zero /\ lineCategoryName v = ""
                   /\ isVoided v = false /\ orderLines v = empty_array).
  { destruct v; try discriminate Hv; repeat split. }
  destruct Hfacts as (Ht & Hd & Hh & Hc & Hvoid & Hl).
  repeat split; try assumption.
  unfold line_step. rewrite Hvoid, Hd.
  unfold looksLikeFood. rewrite Hc.
  rewrite no_hint_in_empty_name by (intros h; apply FOOD_HINTS_nonempty).
  reflexivity.
Qed.

End MoreExtractors.

(** ** Rounding to cents, in exact arithmetic *)


(** ** Configuration *)

Lemma lower_char_idempotent (c : ascii) : lower_char (lower_char c) = lower_char c.
Proof. destruct c as [[] [] [] [] [] [] [] []]; reflexivity. Qed.

Lemma toLowerCase_idempotent (s : string) : toLowerCase (toLowerCase s) = toLowerCase s.
Proof.
  induction s as [| c s IH]; cbn [toLowerCase]; [reflexivity|].
  rewrite lower_char_idempotent, IH. reflexivity.
Qed.

(** X5.  [FOOD_HINTS] is the default list when [FOOD_CATEGORY_HINTS] is not
    set or is empty; whatever the variable holds, every hint is non-empty
    and in lower case, so that it can match a lower-cased category name. *)
Theorem FOOD_HINTS_well_formed (e : option string) :
  FOOD_HINTS None = ["food"; "kitchen"]
  /\ FOOD_HINTS (Some "") = ["food"; "kitchen"]
  /\ (forall h, In h (FOOD_HINTS e) -> nonempty h = true /\ toLowerCase h = h).
Proof.
  split; [reflexivity|]. split; [reflexivity|].
  intros h Hin. unfold FOOD_HINTS in Hin.
  apply filter_In in Hin. destruct Hin as [Hin Hne]. split; [exact Hne|].
  apply in_map_iff in Hin. destruct Hin as (piece & <- & _).
  apply toLowerCase_idempotent.
Qed.

(** *** [parseInt] *)









(** ** The Silverware client *)

Section Client.
Context {RT : Runtime}.

Lemma strip_slash_added (s : string) : strip_slash (s ++ "/") = s.
Proof.
  induction s as [| c s IH]; [reflexivity|].
  cbn [append]. destruct s as [| c' s]; [reflexivity|].
  cbn [append] in IH |- *. cbn [strip_slash] in IH |- *. rewrite IH. reflexivity.
Qed.

Lemma strip_slash_none (s : string) : ends_with_slash s = false -> strip_slash s = s.
Proof.
  induction s as [| c s IH]; [reflexivity|].
  destruct s as [| c' s].
  - cbn. intros ->. reflexivity.
  - intros H. cbn [ends_with_slash] in H. cbn [strip_slash] in IH |- *.
    rewrite IH by exact H. reflexivity.
Qed.

(** X7.  One slash at the end of the base address is dropped before the
    path is appended: a base given with it and the same base given
    without it lead to the same calls. *)
Theorem base_trailing_slash_ignored
    (b t : string) (ep : Endpoint) (m : Method) (fields : list (string * JsVal)) (w : World) :
  ends_with_slash b = false ->
  strip_slash (b ++ "/") = b
  /\ swFetch (b ++ "/") t ep m fields w = swFetch b t ep m fields w.
Proof.
  intros H. split; [apply strip_slash_added|].
  unfold swFetch. rewrite strip_slash_added, (strip_slash_none b H). reflexivity.
Qed.

Lemma reply_cases (path : string) (r : Reply) :
  match r with
  | NoResponse message => @throw JsVal message
  | Response status text json =>
      if (200 <=? status) && (status <=? 299)
      then match json with Some v => ret v | None => throw (JSON_parse_error text) end
      else throw (path ++ " " ++ show_Z status ++ ": " ++ text)
  end
  = lift (match reply_value r with Some v => Ok v | None => Throw (reply_error path r) end).
Proof.
  destruct r as [message | status text [v |]]; cbn [reply_value reply_error];
    try destruct ((200 <=? status) && (status <=? 299)); reflexivity.
Qed.

Lemma orders_get_path_eq (s e page : string) :
  request_path GetOrders GET
    [("StartDate", JStr s); ("EndDate", JStr e); ("Page", JStr page); ("PageSize", JStr "500")]
  = orders_get_path s e page.
Proof.
  unfold request_path, orders_get_path, orders_query, URLSearchParams.
  cbn [map fst snd js_String String.concat endpoint_path].
  change (urlencode "StartDate") with "StartDate".
  change (urlencode "EndDate") with "EndDate".
  change (urlencode "Page") with "Page".
  change (urlencode "PageSize") with "PageSize".
  change (urlencode "500") with "500".
  repeat rewrite append_assoc. cbn [append]. reflexivity.
Qed.

Lemma order_get_path_eq (id : string) :
  request_path GetOrder GET [("OrderID", JStr id)] = order_get_path id.
Proof. reflexivity. Qed.

(** X8.  [listOrders] sends the POST request; when its reply is a success,
    that is the result and nothing else is sent.  Otherwise it sends the
    GET request, whose address ends with the query string made of the same
    dates, the page and the page size, and the result is the reply to it:
    its value, or its error, which names the path with the query string
    when the reply is not OK.  The error of the first attempt is never
    what is raised. *)
Theorem listOrders_falls_back_to_GET (b t s e : string) (page : nat) (w : World) :
  let r1 := orders_replies w (orders_calls w) in
  let r2 := orders_replies w (S (orders_calls w)) in
  let page_text := NumberToString (page_number page) in
  let post := orders_post b t s e (page_number page) in
  let get_ := orders_get b t s e page_text in
  exists w',
    listOrders b t s e page w = Some (two_attempts (orders_get_path s e page_text) r1 r2, w')
    /\ sent w' = (match reply_value r1 with Some _ => [post] | None => [get_; post] end
                  ++ sent w)%list
    /\ orders_calls w'
       = (orders_calls w + match reply_value r1 with Some _ => 1 | None => 2 end)%nat
    /\ untouched_by_http w w' /\ order_calls w' = order_calls w.
Proof.
  cbv zeta. unfold listOrders, try_catch, swFetch, bind at 1, fetch, two_attempts.
  cbv zeta. rewrite reply_cases. unfold lift at 1.
  destruct (reply_value (orders_replies w (orders_calls w))) as [v |].
  - eexists. split; [reflexivity|]. cbn. repeat split. lia.
  - unfold bind. cbn [orders_replies orders_calls].
    rewrite reply_cases. unfold lift.
    cbn [js_String]. rewrite orders_get_path_eq.
    eexists. split; [reflexivity|]. cbn. repeat split. lia.
Qed.

(** X9.  [getOrder] does the same for one order: the identifier goes as it
    is in the POST request and as a string, in the query string, in the
    GET request that follows a failed POST; an error of that request for a
    reply that is not OK names the path with the query string. *)
Theorem getOrder_falls_back_to_GET (b t : string) (orderId : JsVal) (w : World) :
  let r1 := order_replies w (order_calls w) in
  let r2 := order_replies w (S (order_calls w)) in
  let id_text := js_String orderId in
  let post := order_post b t orderId in
  let get_ := order_get b t id_text in
  exists w',
    getOrder b t orderId w = Some (two_attempts (order_get_path id_text) r1 r2, w')
    /\ sent w' = (match reply_value r1 with Some _ => [post] | None => [get_; post] end
                  ++ sent w)%list
    /\ order_calls w'
       = (order_calls w + match reply_value r1 with Some _ => 1 | None => 2 end)%nat
    /\ untouched_by_details w w'.
Proof.
  cbv zeta. unfold getOrder, try_catch, swFetch, bind at 1, fetch, two_attempts.
  cbv zeta. rewrite reply_cases. unfold lift at 1.
  destruct (reply_value (order_replies w (order_calls w))) as [v |].
  - eexists. split; [reflexivity|]. cbn. repeat split. lia.
  - unfold bind. cbn [order_replies order_calls].
    rewrite reply_cases. unfold lift.
    rewrite order_get_path_eq.
    eexists. split; [reflexivity|]. cbn. repeat split. lia.
Qed.

End Client.

(** ** Orders and pages *)

Section Orders.
Context {RT : Runtime}.
Variable env : Env.

Lemma lines_then_header (a : Acc) (o : JsVal) (lines : list JsVal) :
  (let f := fold_left (line_step env) lines
              {| a_orders := S (a_orders a); a_food := a_food a; a_voids := a_voids a;
                 a_promos := a_promos a |} in
   {| a_orders := a_orders f; a_food := a_food f; a_voids := a_voids f;
      a_promos := num_add (a_promos f) (Math_max0 (orderHeaderDiscount o)) |})
  = after_order env a o lines.
Proof.
  cbv zeta. unfold after_order.
  destruct (lines_totals env lines
              {| a_orders := S (a_orders a); a_food := a_food a; a_voids := a_voids a;
                 a_promos := a_promos a |}) as (Ho & Hf & Hv & Hp).
  cbv zeta in Ho, Hf, Hv, Hp. rewrite Ho, Hf, Hv, Hp. reflexivity.
Qed.

(** X10.  A row whose collection of lines has a truthy length is processed
    as it is and nothing is sent.  For any other row the full order is
    asked for, by the first of [OrderID], [Id], [ID] that is neither null
    nor undefined; the order that comes back replaces the row, for the
    lines and for the header discount alike; when both attempts fail the
    error is raised.  Processing an order counts it, adds the three sums
    of its lines and its clamped header discount, or raises a TypeError
    when its lines cannot be iterated. *)
Theorem row_uses_fetched_order (b t : string) (a : Acc) (row : JsVal) (w : World) :
  (truthy (get (orderLines row) "length") = true ->
   row_step env b t a row w = Some (order_outcome env a row, w))
  /\ (truthy (get (orderLines row) "length") = false ->
      let r1 := order_replies w (order_calls w) in
      let r2 := order_replies w (S (order_calls w)) in
      let id_text := js_String (order_id row) in
      exists w',
        row_step env b t a row w
        = Some (match two_attempts (order_get_path id_text) r1 r2 with
                | Ok o => order_outcome env a o
                | Throw e => Throw e
                end, w')
        /\ sent w'
           = (match reply_value r1 with
              | Some _ => [order_post b t (order_id row)]
              | None => [order_get b t id_text; order_post b t (order_id row)]
              end ++ sent w)%list
        /\ untouched_by_details w w').
Proof.
  split; intros Hlen; cbv zeta; unfold row_step; rewrite Hlen.
  - unfold bind, ret, lift, order_outcome.
    destruct (iterate (orderLines row)) as [lines | e]; [| reflexivity].
    rewrite lines_then_header. reflexivity.
  - fold (order_id row).
    unfold bind at 1, getOrder, try_catch, swFetch, bind at 1, fetch, two_attempts.
    cbv zeta. rewrite reply_cases. unfold lift at 1.
    destruct (reply_value (order_replies w (order_calls w))) as [o |].
    + eexists. split.
      * unfold bind, ret, lift, order_outcome.
        destruct (iterate (orderLines o)) as [lines | e]; [| reflexivity].
        rewrite lines_then_header. reflexivity.
      * cbn. repeat split.
    + unfold bind at 1. cbn [order_replies order_calls].
      rewrite reply_cases. unfold lift at 1. rewrite order_get_path_eq.
      destruct (reply_value (order_replies w (S (order_calls w)))) as [o |].
      * eexists. split.
        -- unfold bind, ret, lift, order_outcome.
           destruct (iterate (orderLines o)) as [lines | e]; [| reflexivity].
           rewrite lines_then_header. reflexivity.
        -- cbn. repeat split.
      * eexists. split; [reflexivity|]. cbn. repeat split.
Qed.

Lemma row_step_counts (b t : string) (a a' : Acc) (row : JsVal) (w w' : World) :
  row_step env b t a row w = Some (Ok a', w') -> a_orders a' = S (a_orders a).
Proof.
  intros H. unfold row_step in H.
  apply bind_Ok in H. destruct H as (o & w1 & _ & H).
  apply bind_Ok in H. destruct H as (lines & w2 & _ & H).
  apply ret_Ok in H. destruct H as [-> _]. cbn [a_orders].
  apply (lines_totals env lines).
Qed.

Lemma rows_loop_counts (b t : string) (rows : list JsVal) :
  forall (a a' : Acc) (w w' : World),
    rows_loop env b t rows a w = Some (Ok a', w') ->
    a_orders a' = (a_orders a + List.length rows)%nat.
Proof.
  induction rows as [| row rows IH]; intros a a' w w' H; cbn [rows_loop] in H.
  - apply ret_Ok in H. destruct H as [-> _]. cbn. lia.
  - apply bind_Ok in H. destruct H as (a1 & w1 & Hrow & H).
    apply row_step_counts in Hrow. apply IH in H. cbn [List.length]. lia.
Qed.

Lemma paging_counts (b t s e : string) (ps : list JsVal) (last : JsVal) :
  forall (budget page : nat) (a a' : Acc) (w w' : World),
    (forall i p, nth_error (ps ++ [last])%list i = Some p -> served w i p) ->
    Forall (fun p => (500 <= rows_count p)%nat) ps ->
    (rows_count last < 500)%nat ->
    paging env budget b t s e page a w = Some (Ok a', w') ->
    a_orders a' = (a_orders a + list_sum (map rows_count (ps ++ [last])%list))%nat.
Proof.
  induction ps as [| p ps IH]; intros budget page a a' w w' Hserved Hfull Hshort H.
  - destruct budget as [| budget]; [discriminate H|].
    cbn [paging] in H. unfold bind at 1 in H.
    destruct (listOrders_served b t s e page w last) as (w1 & E & _).
    { apply Hserved. reflexivity. }
    rewrite E in H. clear E.
    cbn [app map]. unfold list_sum. cbn [fold_right]. unfold rows_count in Hshort |- *.
    destruct (rows_of last) as [| | | | | [| row more_rows] |];
      try (apply ret_Ok in H; destruct H as [-> _]; cbn [List.length]; lia).
    apply bind_Ok in H. destruct H as (a1 & w2 & Hrows & H).
    apply rows_loop_counts in Hrows.
    replace (500 <=? List.length (row :: more_rows))%nat with false in H
      by (symmetry; apply Nat.leb_gt; exact Hshort).
    apply ret_Ok in H. destruct H as [-> _]. lia.
  - destruct budget as [| budget]; [discriminate H|].
    cbn [paging] in H. unfold bind at 1 in H.
    destruct (listOrders_served b t s e page w p) as (w1 & E & Hr & Hc & _).
    { apply Hserved. reflexivity. }
    rewrite E in H. clear E.
    inversion Hfull as [| ? ? Hp500 Hfull']; subst.
    cbn [app map]. change (list_sum (rows_count p :: ?l)) with (rows_count p + list_sum l)%nat.
    unfold rows_count in Hp500. unfold rows_count at 1.
    destruct (rows_of p) as [| | | | | [| row more_rows] |]; try (cbn in Hp500; lia).
    apply bind_Ok in H. destruct H as (a1 & w2 & Hrows & H).
    pose proof (rows_loop_keeps_details env _ _ _ _ _ _ _ Hrows) as ((Hr2 & _) & Hc2 & _).
    apply rows_loop_counts in Hrows.
    replace (500 <=? List.length (row :: more_rows))%nat with true in H
      by (symmetry; apply Nat.leb_le; exact Hp500).
    apply IH in H; auto.
    + change (list_sum (?x :: ?l)) with (x + list_sum l)%nat. lia.
    + intros i q Hq. apply (served_later w); [congruence | congruence |].
      apply Hserved. exact Hq.
Qed.

(** X11.  When the aggregator returns totals, [orders] is the number of
    rows of all the pages it went through: every row counts once, whether
    it brought its lines or had them fetched. *)
Theorem orders_counts_every_row
    (budget : nat) (b t weekISO : string) (w w' : World) (ps : list JsVal) (last : JsVal)
    (tot : Totals) :
  (forall i p, nth_error (ps ++ [last])%list i = Some p -> served w i p) ->
  Forall (fun p => (500 <= rows_count p)%nat) ps ->
  (rows_count last < 500)%nat ->
  collectForWeek env budget b t weekISO w = Some (Ok tot, w') ->
  orders tot = list_sum (map rows_count (ps ++ [last])%list).
Proof.
  intros Hserved Hfull Hshort H.
  apply collectForWeek_Ok in H. destruct H as (window & a & _ & Hp & ->).
  cbn [orders].
  apply (paging_counts _ _ _ _ ps last _ _ _ _ _ _ Hserved Hfull Hshort) in Hp.
  cbn [a_orders acc0] in Hp. lia.
Qed.

(** X12.  When [SILVERWARE_TZ_OFFSET_MINUTES] does not start with a
    number, the offset is NaN and the week window cannot be computed: the
    aggregation of every location raises a RangeError before any request
    is sent, the failure is reported and no document is written. *)
Theorem offset_not_a_number_fails_every_location
    (budget : nat) (weekISO locKey b t : string) (w : World) :
  TZ_OFFSET_MIN env = None ->
  nonempty b = true -> nonempty t = true ->
  collectForWeek env budget b t weekISO w = Some (Throw "Invalid time value", w)
  /\ exists w',
      location_step env budget weekISO (locKey, {| base := Some b; token := Some t |}) w
      = Some (Ok tt, w')
      /\ console w' = Failed locKey "Invalid time value" :: console w
      /\ sent w' = sent w /\ written w' = written w /\ store_calls w' = store_calls w.
Proof.
  intros Htz Hb Ht.
  assert (Hc : collectForWeek env budget b t weekISO w = Some (Throw "Invalid time value", w)).
  { unfold collectForWeek, rangeForWeekISO. rewrite Htz.
    destruct (new_Date (weekISO ++ "T00:00:00Z")) as [d |]; reflexivity. }
  split; [exact Hc|].
  unfold location_step. cbn [base token]. rewrite Hb, Ht. cbn [andb].
  unfold try_catch, bind. rewrite Hc.
  eexists. split; [reflexivity|]. repeat split.
Qed.

(** X13.  The loop has no bound of its own: on an upstream that answers
    every call with a page of 500 rows or more, the rows bringing their
    lines, the aggregator never returns, whatever the budget. *)
Theorem full_pages_never_end (budget : nat) (b t weekISO : string) (w : World) (window : Window) :
  rangeForWeekISO weekISO (TZ_OFFSET_MIN env) = Ok window ->
  (forall i, exists p, served w i p /\ (500 <= rows_count p)%nat /\ page_carries_lines p) ->
  collectForWeek env budget b t weekISO w = None.
Proof.
  intros Hwin Hpages. unfold collectForWeek. rewrite Hwin.
  unfold bind at 1, lift. unfold bind at 1.
  rewrite (paging_goes_on env b t (start window) (end_ window) budget 1 acc0 w Hpages).
  reflexivity.
Qed.

End Orders.

(** ** The driver *)

Section DriverFacts.
Context {RT : Runtime}.
Variable env : Env.

(** X14.  When the aggregation of a configured location returns totals,
    the store is called once: if it accepts, exactly one document is
    written, at the path of the location and the week, with the food
    sales, voids and promotions (as [comps]) and the number of orders of
    the totals, 7 as the days scanned and the time of the clock, and a
    summary is logged; if it refuses, nothing is written and the refusal
    is reported as the failure of the location. *)
Theorem location_writes_its_totals
    (budget : nat) (weekISO locKey b t : string) (w w1 : World) (tot : Totals) :
  nonempty b = true -> nonempty t = true ->
  collectForWeek env budget b t weekISO w = Some (Ok tot, w1) ->
  exists w2,
    location_step env budget weekISO (locKey, {| base := Some b; token := Some t |}) w
    = Some (Ok tt, w2)
    /\ store_calls w2 = S (store_calls w)
    /\ match store_replies w (store_calls w) with
       | None =>
           written w2
           = override_doc locKey weekISO tot (clock w (clock_reads w)) :: written w
           /\ console w2 = Summary locKey tot :: console w
       | Some refusal =>
           written w2 = written w /\ console w2 = Failed locKey refusal :: console w
       end.
Proof.
  intros Hb Ht Hc.
  pose proof (collectForWeek_keeps_http env _ _ _ _ _ _ _ Hc)
    as (_ & _ & Hsr & Hsc & Hwr & Hck & Hcr & Hco).
  unfold location_step. cbn [base token]. rewrite Hb, Ht. cbn [andb].
  unfold try_catch, bind at 1. rewrite Hc.
  unfold bind at 1, writeOverrides, bind at 1, now, store_set.
  cbn [store_replies store_calls written clock clock_reads console].
  rewrite Hsr, Hsc, Hwr, Hck, Hcr.
  destruct (store_replies w (store_calls w)) as [refusal |].
  - eexists. split; [reflexivity|]. cbn. rewrite Hco. repeat split.
  - eexists. split; [reflexivity|]. cbn. rewrite Hco. repeat split.
Qed.

Lemma location_step_effects (budget : nat) (weekISO : string) (loc : string * Cfg)
    (w w' : World) (r : Result unit) :
  location_step env budget weekISO loc w = Some (r, w') ->
  r = Ok tt
  /\ exists line docs,
      console w' = line :: console w
      /\ line_key line = fst loc
      /\ is_skipped line = negb (configured (snd loc))
      /\ written w' = (docs ++ written w)%list
      /\ List.length docs = (if is_summary line then 1 else 0)%nat
      /\ (is_skipped line = true -> sent w' = sent w /\ store_calls w' = store_calls w).
Proof.
  destruct loc as [k cfg]. unfold location_step, configured. cbn [fst snd].
  assert (Hskip : log (Skipped k) w = Some (r, w') ->
                  negb false = true ->
                  r = Ok tt
                  /\ exists line docs,
                      console w' = line :: console w /\ line_key line = k
                      /\ is_skipped line = true
                      /\ written w' = (docs ++ written w)%list
                      /\ List.length docs = (if is_summary line then 1 else 0)%nat
                      /\ (is_skipped line = true ->
                          sent w' = sent w /\ store_calls w' = store_calls w)).
  { intros H _. inversion H; subst. split; [reflexivity|].
    exists (Skipped k), []. repeat split. }
  destruct (base cfg) as [b |]; [| intros H; apply Hskip; [exact H | reflexivity]].
  destruct (token cfg) as [t |]; [| intros H; apply Hskip; [exact H | reflexivity]].
  destruct (nonempty b && nonempty t); [| intros H; apply Hskip; [exact H | reflexivity]].
  clear Hskip. unfold try_catch, bind at 1.
  destruct (collectForWeek env budget b t weekISO w) as [[[tot | e] w1] |] eqn:Hc;
    [| | discriminate].
  - pose proof (collectForWeek_keeps_http env _ _ _ _ _ _ _ Hc)
      as (_ & _ & Hsr & Hsc & Hwr & Hck & Hcr & Hco).
    unfold bind at 1, writeOverrides, bind at 1, now, store_set.
    cbn [store_replies store_calls written clock clock_reads console].
    destruct (store_replies w1 (store_calls w1)) as [refusal |]; intros H;
      inversion H; subst; clear H; (split; [reflexivity|]).
    + exists (Failed k refusal), []. cbn. rewrite Hco, Hwr. repeat split; discriminate.
    + eexists (Summary k tot), [_]. cbn. rewrite Hco, Hwr. repeat split; discriminate.
  - pose proof (collectForWeek_keeps_http env _ _ _ _ _ _ _ Hc)
      as (_ & _ & Hsr & Hsc & Hwr & Hck & Hcr & Hco).
    intros H. inversion H; subst; clear H. split; [reflexivity|].
    exists (Failed k e), []. cbn. rewrite Hco, Hwr. repeat split; discriminate.
Qed.

Lemma locations_loop_effects (budget : nat) (weekISO : string) (locs : list (string * Cfg)) :
  forall (w w' : World) (r : Result unit),
    locations_loop env budget weekISO locs w = Some (r, w') ->
    r = Ok tt
    /\ exists lines docs,
        console w' = (rev lines ++ console w)%list
        /\ map line_key lines = map fst locs
        /\ map is_skipped lines = map (fun loc => negb (configured (snd loc))) locs
        /\ written w' = (docs ++ written w)%list
        /\ List.length docs = List.length (filter is_summary lines).
Proof.
  induction locs as [| loc locs IH]; intros w w' r H; cbn [locations_loop] in H.
  - inversion H; subst. split; [reflexivity|]. exists [], []. repeat split.
  - unfold bind in H.
    destruct (location_step env budget weekISO loc w) as [[[[] | e] w1] |] eqn:Hstep;
      [| apply location_step_effects in Hstep; destruct Hstep as [Hr _]; discriminate Hr
      | discriminate H].
    apply location_step_effects in Hstep.
    destruct Hstep as (_ & line & docs1 & Hco1 & Hk1 & Hs1 & Hw1 & Hl1 & _).
    apply IH in H. destruct H as (-> & lines & docs & Hco & Hk & Hs & Hw & Hl).
    split; [reflexivity|].
    exists (line :: lines), (docs ++ docs1)%list.
    cbn [rev map filter]. rewrite Hco, Hco1, Hk, Hk1, Hs, Hs1, Hw, Hw1.
    repeat split.
    + rewrite <- app_assoc. reflexivity.
    + apply app_assoc.
    + rewrite length_app, Hl, Hl1. destruct (is_summary line); cbn [List.length]; lia.
Qed.

Lemma listOrders_value (b t s e : string) (page : nat) (w w1 : World) (payload : JsVal) :
  listOrders b t s e page w = Some (Ok payload, w1) ->
  exists i, reply_value (orders_replies w i) = Some payload.
Proof.
  unfold listOrders, try_catch, swFetch, bind at 1, fetch. cbv zeta.
  rewrite reply_cases. unfold lift at 1.
  destruct (reply_value (orders_replies w (orders_calls w))) as [v |] eqn:E1.
  - intros H. inversion H; subst. exists (orders_calls w). exact E1.
  - unfold bind. cbn [orders_replies orders_calls].
    rewrite reply_cases. unfold lift.
    destruct (reply_value (orders_replies w (S (orders_calls w)))) as [v |] eqn:E2.
    + intros H. inversion H; subst. exists (S (orders_calls w)). exact E2.
    + discriminate.
Qed.

Lemma paging_ends (budget : nat) (b t s e : string) (page : nat) (a : Acc) (w : World) :
  (forall i, ends_paging (orders_replies w i)) ->
  exists r w', paging env (S budget) b t s e page a w = Some (r, w').
Proof.
  intros Hshort. cbn [paging]. unfold bind at 1.
  destruct (listOrders_total b t s e page w) as ([payload | err] & w1 & E); rewrite E;
    [| eexists _, _; reflexivity].
  destruct (listOrders_value _ _ _ _ _ _ _ _ E) as (i & Hi).
  specialize (Hshort i). unfold ends_paging in Hshort. rewrite Hi in Hshort.
  unfold rows_count in Hshort.
  destruct (rows_of payload) as [| | | | | [| row more_rows] |];
    try (eexists _, _; reflexivity).
  unfold bind at 1.
  destruct (rows_loop_total env b t (row :: more_rows) a w1) as ([a' | err] & w2 & Hloop);
    rewrite Hloop; [| eexists _, _; reflexivity].
  replace (500 <=? List.length (row :: more_rows))%nat with false
    by (symmetry; apply Nat.leb_gt; exact Hshort).
  eexists _, _. reflexivity.
Qed.

Lemma location_step_ends (budget : nat) (weekISO : string) (loc : string * Cfg) (w : World) :
  (forall i, ends_paging (orders_replies w i)) ->
  exists w',
    location_step env (S budget) weekISO loc w = Some (Ok tt, w')
    /\ orders_replies w' = orders_replies w.
Proof.
  intros Hshort. destruct loc as [k cfg]. unfold location_step.
  assert (Hlog : forall line w0,
             orders_replies w0 = orders_replies w ->
             exists w', log line w0 = Some (Ok tt, w')
                        /\ orders_replies w' = orders_replies w).
  { intros line w0 H0. eexists. split; [reflexivity | exact H0]. }
  destruct (base cfg) as [b |]; [| apply Hlog; reflexivity].
  destruct (token cfg) as [t |]; [| apply Hlog; reflexivity].
  destruct (nonempty b && nonempty t); [| apply Hlog; reflexivity].
  unfold try_catch, bind at 1.
  assert (Hc : exists r w1, collectForWeek env (S budget) b t weekISO w = Some (r, w1)).
  { unfold collectForWeek, bind at 1, lift.
    destruct (rangeForWeekISO weekISO (TZ_OFFSET_MIN env)) as [window | err];
      [| eexists _, _; reflexivity].
    unfold bind.
    destruct (paging_ends budget b t (start window) (end_ window) 1 acc0 w Hshort)
      as ([a | err] & w1 & ->); eexists _, _; reflexivity. }
  destruct Hc as (r & w1 & Hc). rewrite Hc.
  pose proof (collectForWeek_keeps_http env _ _ _ _ _ _ _ Hc) as (Hrep & _).
  destruct r as [tot | err]; [| apply Hlog; exact Hrep].
  unfold bind at 1, writeOverrides, bind at 1, now, store_set.
  cbn [store_replies store_calls written clock clock_reads console].
  destruct (store_replies w1 (store_calls w1)) as [refusal |];
    (eexists; split; [reflexivity | exact Hrep]).
Qed.

Lemma locations_loop_ends (budget : nat) (weekISO : string) (locs : list (string * Cfg)) :
  forall w : World,
    (forall i, ends_paging (orders_replies w i)) ->
    exists r w', locations_loop env (S budget) weekISO locs w = Some (r, w').
Proof.
  induction locs as [| loc locs IH]; intros w Hshort; cbn [locations_loop].
  - eexists _, _. reflexivity.
  - unfold bind.
    destruct (location_step_ends budget weekISO loc w Hshort) as (w1 & -> & Hrep).
    apply IH. intros i. rewrite Hrep. apply Hshort.
Qed.

(** X15.  With [WEEK_OF] set, [main] raises no error: whenever it ends, it
    has logged one line for each of the four locations in the order
    beacon, tulia, prohibition, cesoir - a skip exactly for the locations
    without base address or token - and it has written as many documents
    as it logged summaries.  It does end, whatever the number of pages it
    is allowed per location, when every reply to [GetOrders] is a failure
    or a page of fewer than 500 rows. *)
Theorem main_reports_each_location (budget : nat) (weekISO : string) (w : World) :
  WEEK_OF env = Some weekISO -> nonempty weekISO = true ->
  (forall (w' : World) (r : Result unit),
      main env budget w = Some (r, w') ->
      r = Ok tt
      /\ exists lines docs,
          console w' = (rev lines ++ console w)%list
          /\ map line_key lines = ["beacon"; "tulia"; "prohibition"; "cesoir"]
          /\ map is_skipped lines = map (fun loc => negb (configured (snd loc))) (LOCS env)
          /\ written w' = (docs ++ written w)%list
          /\ List.length docs = List.length (filter is_summary lines))
  /\ ((1 <= budget)%nat ->
      (forall i, ends_paging (orders_replies w i)) ->
      exists r w', main env budget w = Some (r, w')).
Proof.
  intros Hweek Hne. unfold main. rewrite Hweek, Hne.
  unfold bind at 1 2, ret. split.
  - intros w' r H. apply locations_loop_effects in H. exact H.
  - intros Hbudget Hshort. destruct budget as [| budget]; [lia|].
    apply locations_loop_ends. exact Hshort.
Qed.

End DriverFacts.

(** ** The current week *)

Lemma length_pad (n : nat) : forall k, String.length (pad n k) = n.
Proof.
  induction n as [| n IH]; intros k; [reflexivity|].
  cbn [pad].
  assert (Happ : forall a b, String.length (a ++ b) = (String.length a + String.length b)%nat).
  { induction a as [| c a IHa]; intros b; cbn; [reflexivity | rewrite IHa; reflexivity]. }
  rewrite Happ, IH. cbn. lia.
Qed.

Lemma substring_prefix (a b : string) : String.substring 0 (String.length a) (a ++ b) = a.
Proof.
  induction a as [| c a IH]; cbn [String.length append].
  - destruct b; reflexivity.
  - cbn [String.substring]. rewrite IH. reflexivity.
Qed.

Lemma length_date_string (Y M D : Z) : String.length (date_string Y M D) = 10%nat.
Proof.
  unfold date_string.
  assert (Happ : forall a b, String.length (a ++ b) = (String.length a + String.length b)%nat).
  { induction a as [| c a IHa]; intros b; cbn; [reflexivity | rewrite IHa; reflexivity]. }
  rewrite !Happ, !length_pad. reflexivity.
Qed.

(** The first ten characters of what [toISOString] prints are the date. *)
Lemma iso_string_date (t : Z) :
  0 <= YearFromTime t <= 9999 ->
  String.substring 0 10 (iso_string t)
  = date_string (YearFromTime t) (MonthFromTime t + 1) (DateFromTime t).
Proof.
  intros Hy. unfold iso_string, iso_year.
  replace ((0 <=? YearFromTime t) && (YearFromTime t <=? 9999)) with true
    by (symmetry; apply andb_true_iff; split; apply Z.leb_le; lia).
  pose proof (substring_prefix
                (date_string (YearFromTime t) (MonthFromTime t + 1) (DateFromTime t))
                ("T" ++ pad 2 (HourFromTime t) ++ ":" ++ pad 2 (MinFromTime t) ++ ":"
                 ++ pad 2 (SecFromTime t) ++ "." ++ pad 3 (msFromTime t) ++ "Z")) as H.
  rewrite length_date_string in H. rewrite <- H.
  unfold date_string. rewrite !append_assoc. reflexivity.
Qed.

Lemma day_of_midnight (k : Z) :
  Day (k * msPerDay) = k /\ TimeWithinDay (k * msPerDay) = 0.
Proof.
  unfold Day, TimeWithinDay, msPerDay. split; Z.div_mod_to_equations; lia.
Qed.

Lemma monday_of_spec (d : Z) :
  (monday_of d + 4) mod 7 = 1 /\ monday_of d <= d < monday_of d + 7.
Proof. unfold monday_of. split; Z.div_mod_to_equations; lia. Qed.

Section CurrentWeek.
Context {RT : Runtime}.

Lemma Date_UTC_of_day (t : Z) :
  Z.abs t <= 8640000000000000 ->
  ~ (0 <= YearFromTime t <= 99) ->
  Date_UTC (YearFromTime t) (MonthFromTime t) (DateFromTime t) = Some (Day t * msPerDay).
Proof.
  intros Ht Hy. unfold Date_UTC.
  replace ((0 <=? YearFromTime t) && (YearFromTime t <=? 99)) with false.
  2:{ symmetry. apply andb_false_iff.
      destruct (Z.leb_spec 0 (YearFromTime t)); [right; apply Z.leb_gt; lia | left; reflexivity]. }
  replace (DateFromTime t) with (DateFromTime t + 0) by lia.
  rewrite MakeDay_of_time. unfold MakeDate, MakeTime.
  replace (( Day t + 0) * msPerDay + (0 * msPerHour + 0 * msPerMinute + 0 * msPerSecond + 0))
    with (Day t * msPerDay) by lia.
  apply TimeClip_valid. unfold Day, msPerDay. Z.div_mod_to_equations. lia.
Qed.

Lemma mondayISO_value (d : Z) :
  - 8640000000000000 + 6 * msPerDay <= LocalTime d <= 8640000000000000 ->
  ~ (0 <= YearFromTime (LocalTime d) <= 99) ->
  mondayISO d
  = Ok (String.substring 0 10 (iso_string (monday_of (Day (LocalTime d)) * msPerDay))).
Proof.
  intros Hrange Hy. unfold mondayISO.
  set (L := LocalTime d) in *.
  rewrite (Date_UTC_of_day L) by (unfold msPerDay in Hrange; try exact Hy; lia).
  destruct (day_of_midnight (Day L)) as [Hday Htime].
  set (t0 := Day L * msPerDay) in *.
  assert (Hbound : -100000000 + 6 <= Day L <= 100000000).
  { unfold Day, msPerDay in *. Z.div_mod_to_equations. lia. }
  cbn [getUTCDay option_map]. unfold WeekDay. rewrite Hday.
  assert (Hwd : 0 <= (Day L + 4) mod 7 < 7) by (apply Z.mod_pos_bound; lia).
  assert (Hres : forall wd, wd - 1 = (Day L + 3) mod 7 ->
                 setUTCDate (Some t0) (opt_sub (getUTCDate (Some t0)) (Some (wd - 1)))
                 = Some (monday_of (Day L) * msPerDay)).
  { intros wd Hwd1. cbn [getUTCDate option_map opt_sub setUTCDate].
    replace (DateFromTime t0 - (wd - 1)) with (DateFromTime t0 + - (wd - 1)) by lia.
    rewrite MakeDay_of_time, Htime, Hday. unfold MakeDate.
    replace ((Day L + - (wd - 1)) * msPerDay + 0) with (monday_of (Day L) * msPerDay)
      by (unfold monday_of; lia).
    apply TimeClip_valid. pose proof (monday_of_spec (Day L)). unfold msPerDay. lia. }
  destruct ((Day L + 4) mod 7) as [| p |] eqn:Ex.
  - change (7 =? 1) with false. cbv iota.
    rewrite (Hres 7) by (Z.div_mod_to_equations; lia). reflexivity.
  - destruct (Z.eqb_spec (Z.pos p) 1) as [E1 | E1].
    + cbn [toISOString]. do 3 f_equal. subst t0. f_equal.
      unfold monday_of. Z.div_mod_to_equations. lia.
    + rewrite (Hres (Z.pos p)) by (Z.div_mod_to_equations; lia). reflexivity.
  - lia.
Qed.

(** X16.  [mondayISO(d)] is the Monday on or before the local calendar
    date of [d]: its day number has week day 1 and lies within the six
    days before that date; for a year of four digits it is printed as
    YYYY-MM-DD.  (The local date must not be in the years 0 to 99, which
    [Date.UTC] takes for 1900 to 1999, and the Monday must be a time value
    that a [Date] can hold.) *)
Theorem mondayISO_is_the_monday_before (d : Z) :
  - 8640000000000000 + 6 * msPerDay <= LocalTime d <= 8640000000000000 ->
  ~ (0 <= YearFromTime (LocalTime d) <= 99) ->
  let m := monday_of (Day (LocalTime d)) in
  mondayISO d = Ok (String.substring 0 10 (iso_string (m * msPerDay)))
  /\ WeekDay (m * msPerDay) = 1
  /\ m <= Day (LocalTime d) < m + 7
  /\ (0 <= YearFromTime (m * msPerDay) <= 9999 ->
      mondayISO d
      = Ok (date_string (YearFromTime (m * msPerDay)) (MonthFromTime (m * msPerDay) + 1)
              (DateFromTime (m * msPerDay)))).
Proof.
  intros Hrange Hy m.
  pose proof (mondayISO_value d Hrange Hy) as Hv. fold m in Hv.
  destruct (monday_of_spec (Day (LocalTime d))) as [Hwd Hm]. fold m in Hwd, Hm.
  split; [exact Hv|]. split; [| split; [exact Hm|]].
  - unfold WeekDay. rewrite (proj1 (day_of_midnight m)). exact Hwd.
  - intros Hy4. rewrite Hv, iso_string_date by exact Hy4. reflexivity.
Qed.

(** X17.  The default week: the window that [rangeForWeekISO] computes
    from what [mondayISO] returns starts at the midnight in UTC of that
    Monday moved by minus the offset and ends 7 days later. *)
Theorem default_week_window (d tz : Z) :
  - 8640000000000000 + 6 * msPerDay <= LocalTime d <= 8640000000000000 ->
  ~ (0 <= YearFromTime (LocalTime d) <= 99) ->
  let t := monday_of (Day (LocalTime d)) * msPerDay in
  0 <= YearFromTime t <= 9999 ->
  Z.abs (t - tz * msPerMinute) <= 8640000000000000 ->
  Z.abs (t - tz * msPerMinute + 7 * msPerDay) <= 8640000000000000 ->
  exists iso,
    mondayISO d = Ok iso
    /\ rangeForWeekISO iso (Some tz)
       = Ok {| start := iso_string (t - tz * msPerMinute);
               end_ := iso_string (t - tz * msPerMinute + 7 * msPerDay) |}.
Proof.
  intros Hrange Hy t Hy4 Hs He.
  pose proof (mondayISO_value d Hrange Hy) as Hv. fold t in Hv.
  rewrite iso_string_date in Hv by exact Hy4.
  eexists. split; [exact Hv|].
  assert (Hmid : midnight_UTC (YearFromTime t) (MonthFromTime t + 1) (DateFromTime t) = t).
  { unfold midnight_UTC, MakeDate, MakeTime.
    replace (MonthFromTime t + 1 - 1) with (MonthFromTime t) by lia.
    replace (DateFromTime t) with (DateFromTime t + 0) by lia.
    rewrite MakeDay_of_time. subst t.
    rewrite (proj1 (day_of_midnight _)). lia. }
  pose proof (MonthFromTime_range t) as Hm.
  pose proof (DateFromTime_range t) as Hd.
  rewrite rangeForWeekISO_shifted; rewrite ?Hmid; try assumption; try lia.
  - reflexivity.
  - replace (MonthFromTime t + 1 - 1) with (MonthFromTime t) by lia. exact Hd.
Qed.

End CurrentWeek.

(** ** More on the extractors and on the first page *)

Section MoreFacts.
Context {RT : Runtime}.
Variable env : Env.

(** X18.  [lineCategoryName] is the lower-cased text of the first truthy
    value among [SalesCategoryName], [CategoryName], [MenuGroup], [Family]
    and [Category], the empty string when there is none; the name it
    returns is in lower case. *)
Theorem lineCategoryName_first_truthy (v : JsVal) :
  lineCategoryName v
  = toLowerCase (js_String (first_such truthy (map (get v) category_fields) (JStr "")))
  /\ toLowerCase (lineCategoryName v) = lineCategoryName v.
Proof.
  split.
  - unfold lineCategoryName, first_such, category_fields, js_or. cbn [map find].
    repeat match goal with
           | |- context [truthy (get v ?k)] => destruct (truthy (get v k)); [reflexivity|]
           end.
    reflexivity.
  - unfold lineCategoryName. apply toLowerCase_idempotent.
Qed.

(** X19.  A first page without rows, be it an empty array or a payload
    that holds no array under [Orders], under [Data] or as itself, ends the
    aggregation after that one call, with no order and totals of zero. *)
Theorem empty_first_page_gives_zero_totals
    (budget : nat) (b t weekISO : string) (w : World) (window : Window) (payload : JsVal) :
  rangeForWeekISO weekISO (TZ_OFFSET_MIN env) = Ok window ->
  served w 0 payload ->
  rows_count payload = 0%nat ->
  exists w',
    collectForWeek env (S budget) b t weekISO w
    = Some (Ok {| t_start := start window; t_end := end_ window; orders := 0;
                  food := num_zero; voids := num_zero; promos := num_zero |}, w')
    /\ orders_calls w' = S (orders_calls w) /\ order_calls w' = order_calls w.
Proof.
  intros Hwin Hserved Hrows.
  unfold collectForWeek. rewrite Hwin. unfold bind at 1, lift.
  unfold bind at 1. cbn [paging]. unfold bind at 1.
  destruct (listOrders_served b t (start window) (end_ window) 1 w payload Hserved)
    as (w1 & E & _ & Hc & _).
  pose proof (listOrders_keeps_http _ _ _ _ _ _ _ _ E) as Hk.
  rewrite E. unfold rows_count in Hrows.
  assert (Hd : order_calls w1 = order_calls w).
  { revert E. unfold listOrders, try_catch, swFetch, bind, fetch.
    destruct Hserved as (status & text & Hst & Hrep). rewrite Nat.add_0_r in Hrep.
    rewrite Hrep.
    replace ((200 <=? status) && (status <=? 299)) with true
      by (symmetry; apply andb_true_iff; split; apply Z.leb_le; lia).
    intros E. inversion E. reflexivity. }
  destruct (rows_of payload) as [| | | | | [| row more_rows] |]; try discriminate Hrows;
    (exists w1; split; [reflexivity | split; assumption]).
Qed.

End MoreFacts.

(** ** Instances *)

Lemma defaults_on_non_objects_witness :
  @line_step example_runtime example_env acc0 (JStr "a")
  = {| a_orders := 0; a_food := num_zero; a_voids := num_zero;
       a_promos := num_add num_zero num_zero |}.
Proof.
  apply (@defaults_on_non_objects example_runtime example_env (JStr "a") acc0). reflexivity.
Defined.

Lemma FOOD_HINTS_well_formed_witness :
  nonempty "bar" = true /\ toLowerCase "bar" = "bar".
Proof.
  apply (proj2 (proj2 (FOOD_HINTS_well_formed (Some " Food, BAR ,,")))).
  right. left. reflexivity.
Defined.


Lemma base_trailing_slash_ignored_witness :
  @swFetch example_runtime ("https://pos" ++ "/") "tok" GetOrder POST [] silent_world
  = @swFetch example_runtime "https://pos" "tok" GetOrder POST [] silent_world.
Proof.
  apply (@base_trailing_slash_ignored example_runtime "https://pos" "tok" GetOrder POST []
           silent_world).
  reflexivity.
Defined.

Lemma row_uses_fetched_order_witness :
  @row_step example_runtime example_env "https://pos" "tok" acc0 items_order bare_row_world
  = Some (@order_outcome example_runtime example_env acc0 items_order, bare_row_world)
  /\ exists w',
      @row_step example_runtime example_env "https://pos" "tok" acc0 bare_row bare_row_world
      = Some (@order_outcome example_runtime example_env acc0 fetched_order, w')
      /\ sent w'
         = [order_get "https://pos" "tok" "7"; order_post "https://pos" "tok" (jnum 7)].
Proof.
  split.
  - apply (proj1 (@row_uses_fetched_order example_runtime example_env "https://pos" "tok" acc0
                    items_order bare_row_world)).
    reflexivity.
  - destruct (proj2 (@row_uses_fetched_order example_runtime example_env "https://pos" "tok"
                       acc0 bare_row bare_row_world) eq_refl)
      as (w' & Hstep & Hsent & _).
    exists w'. split; [exact Hstep | exact Hsent].
Defined.

Lemma orders_counts_every_row_witness :
  exists tot w',
    @collectForWeek example_runtime example_env 2 "https://pos" "tok" "2025-10-06"
      two_pages_world = Some (Ok tot, w')
    /\ orders tot = 502%nat.
Proof.
  destruct (@collectForWeek example_runtime example_env 2 "https://pos" "tok" "2025-10-06"
              two_pages_world) as [[[tot | e] w'] |] eqn:E;
    [| vm_compute in E; discriminate E | vm_compute in E; discriminate E].
  exists tot, w'. split; [reflexivity|].
  rewrite (@orders_counts_every_row example_runtime example_env 2 "https://pos" "tok"
             "2025-10-06" two_pages_world w' [full_page] short_page tot).
  - vm_compute. reflexivity.
  - intros [| [| i]] p H; cbn in H; inversion H; subst.
    + exists 200, "". split; [lia | reflexivity].
    + exists 200, "". split; [lia | reflexivity].
    + destruct i; discriminate.
  - constructor; [apply Nat.leb_le; vm_compute; reflexivity | constructor].
  - apply Nat.ltb_lt. vm_compute. reflexivity.
  - exact E.
Defined.

Lemma offset_not_a_number_fails_every_location_witness :
  @collectForWeek example_runtime no_offset_env 3 "https://pos" "tok" "2025-10-06"
    two_pages_world = Some (Throw "Invalid time value", two_pages_world).
Proof.
  apply (@offset_not_a_number_fails_every_location example_runtime no_offset_env 3
           "2025-10-06" "beacon" "https://pos" "tok" two_pages_world); reflexivity.
Defined.

Lemma full_pages_never_end_witness :
  @collectForWeek example_runtime example_env 3 "https://pos" "tok" "2025-10-06"
    (endless_world full_page) = None.
Proof.
  apply (@full_pages_never_end example_runtime example_env 3 "https://pos" "tok" "2025-10-06"
           (endless_world full_page)
           {| start := "2025-10-06T04:00:00.000Z"; end_ := "2025-10-13T04:00:00.000Z" |}).
  - vm_compute. reflexivity.
  - intros i. exists full_page. split; [| split].
    + exists 200, "". split; [lia | reflexivity].
    + apply Nat.leb_le. vm_compute. reflexivity.
    + change (Forall carries_lines (repeat items_order 500)).
      apply Forall_forall. intros x Hx. apply repeat_spec in Hx. subst x. exact I.
Defined.

Lemma location_writes_its_totals_witness :
  exists w2,
    @location_step example_runtime example_env 1 "2025-10-06"
      ("beacon", {| base := Some "https://pos"; token := Some "tok" |}) hostile_world
    = Some (Ok tt, w2)
    /\ store_calls w2 = 1%nat
    /\ map doc_path (written w2) = ["companies/aidan/locations/beacon/overrides/2025-10-06"]
    /\ map food_sales (written w2) = [num_of_Z 10]
    /\ map last_run (written w2) = ["2025-10-08T05:06:40.000Z"].
Proof.
  destruct (@collectForWeek example_runtime example_env 1 "https://pos" "tok" "2025-10-06"
              hostile_world) as [[[tot | e] w1] |] eqn:E;
    [| vm_compute in E; discriminate E | vm_compute in E; discriminate E].
  destruct (@location_writes_its_totals example_runtime example_env 1 "2025-10-06" "beacon"
              "https://pos" "tok" hostile_world w1 tot eq_refl eq_refl E)
    as (w2 & Hstep & Hcalls & Hdoc).
  cbn in Hdoc. destruct Hdoc as [Hwritten _].
  exists w2. split; [exact Hstep|]. split; [exact Hcalls|].
  rewrite Hwritten. cbn [map doc_path food_sales last_run override_doc written hostile_world
                          world_of].
  assert (Hfood : food tot = num_of_Z 10).
  { vm_compute in E. inversion E. reflexivity. }
  rewrite Hfood. repeat split.
Defined.

Lemma main_reports_each_location_witness :
  exists w',
    @main example_runtime example_env 1 hostile_world = Some (Ok tt, w')
    /\ map line_key (rev (console w')) = ["beacon"; "tulia"; "prohibition"; "cesoir"]
    /\ map is_skipped (rev (console w')) = [false; true; true; false].
Proof.
  destruct (@main_reports_each_location example_runtime example_env 1 "2025-10-06"
              hostile_world eq_refl eq_refl) as [Hlog Hends].
  destruct Hends as (r & w' & E).
  - lia.
  - intros [| i]; [| destruct i; exact I].
    apply Nat.ltb_lt. vm_compute. reflexivity.
  - destruct (Hlog w' r E) as (-> & lines & docs & Hconsole & Hkeys & Hskips & _).
    exists w'. split; [exact E|].
    rewrite Hconsole. cbn [console hostile_world world_of]. rewrite app_nil_r, rev_involutive.
    split; [exact Hkeys | exact Hskips].
Defined.

Lemma mondayISO_is_the_monday_before_witness :
  @mondayISO example_runtime 1759900000000 = Ok "2025-10-06"
  /\ WeekDay (monday_of (Day 1759900000000) * msPerDay) = 1.
Proof.
  destruct (@mondayISO_is_the_monday_before example_runtime 1759900000000)
    as (_ & Hwd & _ & Hdate).
  - vm_compute. split; discriminate.
  - vm_compute. intros [_ H]. apply H. reflexivity.
  - split; [| exact Hwd].
    rewrite Hdate; [reflexivity |]. vm_compute. split; discriminate.
Defined.

Lemma default_week_window_witness :
  exists iso,
    @mondayISO example_runtime 1759900000000 = Ok iso
    /\ @rangeForWeekISO example_runtime iso (Some (-240))
       = Ok {| start := "2025-10-06T04:00:00.000Z"; end_ := "2025-10-13T04:00:00.000Z" |}.
Proof.
  destruct (@default_week_window example_runtime 1759900000000 (-240))
    as (iso & Hmon & Hrange).
  - vm_compute. split; discriminate.
  - vm_compute. intros [_ H]. apply H. reflexivity.
  - vm_compute. split; discriminate.
  - vm_compute. discriminate.
  - vm_compute. discriminate.
  - exists iso. split; [exact Hmon|]. rewrite Hrange. vm_compute. reflexivity.
Defined.

Lemma empty_first_page_gives_zero_totals_witness :
  exists w',
    @collectForWeek example_runtime example_env 1 "https://pos" "tok" "2025-10-06"
      (world_of [Response 200 "" (Some (JObj [("Orders", JStr "none")]))] [])
    = Some (Ok {| t_start := "2025-10-06T04:00:00.000Z"; t_end := "2025-10-13T04:00:00.000Z";
                  orders := 0; food := num_zero; voids := num_zero; promos := num_zero |}, w').
Proof.
  destruct (@empty_first_page_gives_zero_totals example_runtime example_env 0 "https://pos"
              "tok" "2025-10-06"
              (world_of [Response 200 "" (Some (JObj [("Orders", JStr "none")]))] [])
              {| start := "2025-10-06T04:00:00.000Z"; end_ := "2025-10-13T04:00:00.000Z" |}
              (JObj [("Orders", JStr "none")]))
    as (w' & H & _).
  - vm_compute. reflexivity.
  - exists 200, "". split; [lia | reflexivity].
  - reflexivity.
  - exists w'. exact H.
Defined.
